(** * repro: a shallow embedding of the training harness

    The development follows the three source files of the repository:
    - [src/repro/train.py]: the learning-rate schedule, the construction of
      the experiment and the callbacks of the training driver;
    - [src/repro/dataset/tinyimagenet.py]: the dataset preparer and the
      partition of the validation container;
    - [bin/0.benchmark/zoo/save.py]: the batch submission script.

    Conventions.  Python integers are [Z]; strings are [string]; a function
    that can raise returns a [result]; code that touches the outside world
    threads an explicit world record.  Python floats are exact rationals [Q]
    where a statement is about structure, order or effects, and primitive
    binary64 floats (module [Binary64]) where it is about the value of a
    rate. *)

From Stdlib Require Import ZArith QArith Qround Qpower Lia List Sorted Ascii String.
From Stdlib Require Import PrimFloat.
From stdpp Require Import base decidable list strings gmap.
From Equations Require Import Equations.
Import ListNotations.

Open Scope Z_scope.
Set Warnings "-inexact-float".

(** ** Python: the pieces of the language and of its standard library that
    the three files rely on *)

Module Py.

(** The exceptions that the modelled code can raise. *)
Inductive exn : Type :=
| NameError (name : string)
| KeyError (key : string)
| AttributeError (msg : string)
| IndexError
| ValueError (msg : string)
| RuntimeError (msg : string)
| FileNotFoundError (path : string)
| URLError
| Timeout.

Inductive result (A : Type) : Type :=
| Ok (a : A)
| Raise (e : exn).
Arguments Ok {A} a.
Arguments Raise {A} e.

Definition bind {A B} (r : result A) (k : A -> result B) : result B :=
  match r with
  | Ok a => k a
  | Raise e => Raise e
  end.

Definition is_ok {A} (r : result A) : bool :=
  match r with Ok _ => true | Raise _ => false end.

(** [bisect.bisect_right(a, x)] with the defaults [lo=0], [hi=len(a)]:
<<
    while lo < hi:
        mid = (lo+hi)//2
        if x < a[mid]: hi = mid
        else: lo = mid+1
    return lo
>>
    [a[mid]] is read with a default; the loop keeps [mid < hi <= len(a)],
    see [bisect_loop_bounds]. *)
Equations? bisect_loop (a : list Z) (x : Z) (lo hi : nat) : nat
  by wf (hi - lo)%nat lt :=
  bisect_loop a x lo hi with lt_dec lo hi => {
    | right _ => lo
    | left _ with Z.ltb x (nth ((lo + hi) / 2) a 0) => {
        | true => bisect_loop a x lo ((lo + hi) / 2)
        | false => bisect_loop a x (S ((lo + hi) / 2)) hi } }.
Proof.
  all: change (Nat.divmod (lo + hi) 1 0 1).1 with ((lo + hi) / 2)%nat;
    assert (lo <= (lo + hi) / 2 < hi)%nat
      by (split; [apply Nat.div_le_lower_bound | apply Nat.Div0.div_lt_upper_bound]; lia);
    lia.
Qed.

Definition bisect_right (a : list Z) (x : Z) : nat :=
  bisect_loop a x 0 (length a).

(** Two notions used to state what the search computes: the index-wise
    reading of sortedness, and the number of elements that are [<= x]. *)
Definition monotone (a : list Z) : Prop :=
  forall i j : nat, (i <= j < length a)%nat -> nth i a 0 <= nth j a 0.

Definition count_le (a : list Z) (x : Z) : nat :=
  length (List.filter (fun m => m <=? x) a).

(** [range(lo, hi)] over non-negative bounds, as the list it enumerates. *)
Definition range (lo hi : nat) : list nat := seq lo (hi - lo).

(** [sorted(l) == list(l)]: the list is in non-decreasing order. *)
Fixpoint is_sorted (l : list Z) : bool :=
  match l with
  | [] => true
  | x :: tl =>
      match tl with
      | [] => true
      | y :: _ => (x <=? y) && is_sorted tl
      end
  end.

(** Effectful code: a world of type [W] is threaded through, and a call
    either returns or raises. *)
Definition io (W A : Type) : Type := W -> W * result A.

Definition ret {W A} (a : A) : io W A := fun w => (w, Ok a).

Definition raise {W A} (e : exn) : io W A := fun w => (w, Raise e).

Definition bind_io {W A B} (c : io W A) (k : A -> io W B) : io W B :=
  fun w =>
    match c w with
    | (w', Ok a) => k a w'
    | (w', Raise e) => (w', Raise e)
    end.

(** [try: body / except <catches>: handler / finally: final].  An exception
    raised by the handler or by the body and not caught is pending while
    [final] runs; an exception raised by [final] replaces it. *)
Definition try_except_finally {W A} (body : io W A) (catches : exn -> bool)
    (handler : io W A) (final : io W unit) : io W A :=
  fun w =>
    let '(w1, r1) := body w in
    let '(w2, r2) :=
      match r1 with
      | Ok a => (w1, Ok a)
      | Raise e => if catches e then handler w1 else (w1, Raise e)
      end in
    match final w2 with
    | (w3, Ok _) => (w3, r2)
    | (w3, Raise e) => (w3, Raise e)
    end.

(** [with cm: body]: [enter] may raise; once entered, [exit] runs whether
    [body] returns or raises, and the exception of [body] propagates. *)
Definition with_ {W A} (enter : io W unit) (exit : W -> W) (body : io W A)
    : io W A :=
  fun w =>
    match enter w with
    | (w1, Raise e) => (w1, Raise e)
    | (w1, Ok _) => let '(w2, r) := body w1 in (exit w2, r)
    end.

(** Resolution of a global name at the moment it is evaluated: the names
    bound at module level, then the builtins. *)
Definition builtins : list string :=
  ["print"; "int"; "len"; "range"; "all"; "dict"; "tuple"; "isinstance";
   "str"; "eval"; "open"; "vars"; "enumerate"; "max"]%string.

Definition lookup_name (globals : list string) (name : string) : result unit :=
  if bool_decide (name ∈ globals ++ builtins) then Ok tt else Raise (NameError name).

(** [posixpath.join(a, b)]. *)
Definition starts_with_slash (s : string) : bool :=
  match s with
  | String c _ => bool_decide (c = "/"%char)
  | EmptyString => false
  end.

Fixpoint ends_with_slash (s : string) : bool :=
  match s with
  | EmptyString => false
  | String c EmptyString => bool_decide (c = "/"%char)
  | String _ tl => ends_with_slash tl
  end.

Definition path_join (a b : string) : string :=
  if starts_with_slash b then b
  else if bool_decide (a = ""%string) || ends_with_slash a then (a ++ b)%string
  else (a ++ "/" ++ b)%string.

(** Truth value of an integer object.  [True] and [False] are the integers
    1 and 0 ([bool] is a subclass of [int]). *)
Definition truthy (v : Z) : bool := negb (v =? 0).

(** [os.path.join] of several components. *)
Definition path_join_all (a : string) (rest : list string) : string :=
  fold_left path_join rest a.

(** [str.format] with keyword arguments, for templates whose fields are
    plain names and that contain no doubled brace, as those of the script:
    the text is copied, and each [{name}] is replaced by [kwargs[name]];
    a name that is not a key raises [KeyError].  [field] is the name being
    read, if a brace is open. *)
Fixpoint format_from (template : string) (field : option string)
    (kwargs : gmap string string) : result string :=
  match template with
  | EmptyString =>
      match field with
      | None => Ok EmptyString
      | Some _ => Raise (ValueError "expected '}' before end of string")
      end
  | String c rest =>
      match field with
      | None =>
          if bool_decide (c = "{"%char) then format_from rest (Some EmptyString) kwargs
          else if bool_decide (c = "}"%char)
          then Raise (ValueError "Single '}' encountered in format string")
          else bind (format_from rest None kwargs) (fun s => Ok (String c s))
      | Some name =>
          if bool_decide (c = "}"%char)
          then
            match kwargs !! name with
            | None => Raise (KeyError name)
            | Some v => bind (format_from rest None kwargs) (fun s => Ok (v ++ s)%string)
            end
          else format_from rest (Some (name ++ String c EmptyString)%string) kwargs
      end
  end.

Definition format (template : string) (kwargs : gmap string string) : result string :=
  format_from template None kwargs.

(** [s.split(".")[-1]]: what follows the last dot, or all of [s]. *)
Fixpoint last_component_from (s acc : string) : string :=
  match s with
  | EmptyString => acc
  | String c rest =>
      if bool_decide (c = "."%char) then last_component_from rest EmptyString
      else last_component_from rest (acc ++ String c EmptyString)%string
  end.

Definition last_component (s : string) : string := last_component_from s EmptyString.

(** [s[:-k]]. *)
Definition drop_last (k : nat) (s : string) : string :=
  String.substring 0 (String.length s - k) s.

(** [int(x)] on a float: truncation toward zero. *)
Definition int_of_float (x : Q) : Z := Z.quot (Qnum x) (Zpos (Qden x)).

(** [a / b] on two integers: true division. *)
Definition truediv (a b : Z) : Q := (inject_Z a / inject_Z b)%Q.

End Py.

(** ** The learning-rate schedule ([train.py], class [MultiStepLR]) *)

Module LRSchedule.
Import Py.

(** The attributes of a scheduler object.  [base_lrs] are the initial rates
    of the optimizer's parameter groups, read by the base class. *)
Record MultiStepLR : Type := mkMultiStepLR {
  milestones : list Z;
  gamma : Q;
  last_epoch : Z;
  base_lrs : list Q;
  div_first_epoch : Z
}.

(** [MultiStepLR.get_lr].  [div_first_epoch] holds whatever object the
    caller passed; [and] and [if] test its truth value. *)
Definition get_lr (s : MultiStepLR) : list Q :=
  if (last_epoch s <? 1) && truthy (div_first_epoch s)
  then map (fun base_lr => base_lr * gamma s)%Q (base_lrs s)
  else map (fun base_lr =>
              (base_lr * gamma s ^ Z.of_nat (bisect_right (milestones s) (last_epoch s)))%Q)
           (base_lrs s).

(** The scheduler with [last_epoch] set to [e]. *)
Definition at_epoch (s : MultiStepLR) (e : Z) : MultiStepLR :=
  mkMultiStepLR (milestones s) (gamma s) e (base_lrs s) (div_first_epoch s).

(** [_LRScheduler.step()] with no argument: advance [last_epoch] and hand
    the new rates to the optimizer's parameter groups. *)
Definition step (s : MultiStepLR) : MultiStepLR * list Q :=
  let s' := at_epoch s (last_epoch s + 1) in (s', get_lr s').

(** [torch.optim.lr_scheduler.MultiStepLR.__init__] of the release whose
    [get_lr] is the closed form overridden above: it refuses milestones
    that are not sorted, stores [milestones] and [gamma], and the base
    class takes [base_lrs] from the optimizer, runs [step(last_epoch + 1)]
    and then stores [last_epoch].  The second component is what that first
    step writes into the optimizer. *)
Definition torch_MultiStepLR_init (self : MultiStepLR) (base : list Q)
    (ms : list Z) (g : Q) (le : Z) : result (MultiStepLR * list Q) :=
  if is_sorted ms
  then
    let s := mkMultiStepLR ms g le base (div_first_epoch self) in
    Ok (s, get_lr (at_epoch s (le + 1)))
  else Raise (ValueError "Milestones should be a list of increasing integers").

(** [MultiStepLR.__init__(self, optimizer, milestones, gamma=0.1,
    div_first_epoch=False, last_epoch=-1)]: the attribute is set first, and
    the super constructor is called with the literals [gamma=0.1] and
    [last_epoch=-1].  [base] are the rates of the optimizer. *)
Definition MultiStepLR_init (base : list Q) (ms : list Z) (g : Q)
    (dfe : Z) (le : Z) : result (MultiStepLR * list Q) :=
  let self := mkMultiStepLR [] 0 0 [] dfe in
  torch_MultiStepLR_init self base ms (1 # 10) (-1).

End LRSchedule.

(** ** The schedule with its rates in binary64

    The interpreter holds the rates as binary64 floats; this is the same
    class with [gamma] and the rates as primitive floats and [*] as the
    float product.  Decimal literals denote the nearest float, as in the
    source. *)

Module Binary64.
Import Py.

(** [x ** n] for a float [x] and an integer [n >= 0].  The interpreter
    returns 1.0 when the exponent is zero and otherwise calls the C
    library's [pow]; for the exponent 1 that is [x], and for the exponent 2
    the exact square rounded to the nearest float, which is the float
    product [x * x].  From 3 on the product of the roundings stands for
    [pow], from which it can differ in the last place. *)
Fixpoint pow (x : float) (n : nat) : float :=
  match n with
  | O => 1%float
  | S O => x
  | S n' => (x * pow x n')%float
  end.

Record MultiStepLR : Type := mkMultiStepLR {
  milestones : list Z;
  gamma : float;
  last_epoch : Z;
  base_lrs : list float;
  div_first_epoch : Z
}.

(** [MultiStepLR.get_lr]. *)
Definition get_lr (s : MultiStepLR) : list float :=
  if (last_epoch s <? 1) && truthy (div_first_epoch s)
  then map (fun base_lr => base_lr * gamma s)%float (base_lrs s)
  else map (fun base_lr =>
              (base_lr * pow (gamma s) (bisect_right (milestones s) (last_epoch s)))%float)
           (base_lrs s).

Definition at_epoch (s : MultiStepLR) (e : Z) : MultiStepLR :=
  mkMultiStepLR (milestones s) (gamma s) e (base_lrs s) (div_first_epoch s).

(** The constructor of the base class, as in [LRSchedule]. *)
Definition torch_MultiStepLR_init (self : MultiStepLR) (base : list float)
    (ms : list Z) (g : float) (le : Z) : result (MultiStepLR * list float) :=
  if is_sorted ms
  then
    let s := mkMultiStepLR ms g le base (div_first_epoch self) in
    Ok (s, get_lr (at_epoch s (le + 1)))
  else Raise (ValueError "Milestones should be a list of increasing integers").

(** [MultiStepLR.__init__]: the super constructor gets the literal
    [gamma=0.1]. *)
Definition MultiStepLR_init (base : list float) (ms : list Z) (g : float)
    (dfe : Z) (le : Z) : result (MultiStepLR * list float) :=
  let self := mkMultiStepLR [] 0 0 [] dfe in
  torch_MultiStepLR_init self base ms 0.1%float (-1).

End Binary64.

(** ** The dataset preparer and loader ([dataset/tinyimagenet.py]) *)

Module TinyImagenet.
Import Py.

Definition DIRNAME : string := "tiny-imagenet-200".
Definition ZIP_FILENAME : string := "tiny-imagenet-200.zip".
Definition TRAIN_FILENAME : string := "tinyimagenet_train.h5".
Definition VAL_FILENAME : string := "tinyimagenet_val.h5".

(** What the preparer does to the outside world, in order. *)
Inductive event : Type :=
| Download (url path : string)
| Extract (archive dest : string)
| CreateHDF5 (path : string) (n : Z)
| Rmtree (path : string)
| AcquireLock (path : string)
| ReleaseLock (path : string).

(** The world of the preparer: the paths that exist, for how many seconds
    another process still holds the lock file, whether the network answers,
    the lines printed and the trace of actions. *)
Record world : Type := mkWorld {
  files : gset string;
  lock_busy_for : Z;
  network_up : bool;
  stdout : list string;
  trace : list event
}.

Definition emit (e : event) (w : world) : world :=
  mkWorld (files w) (lock_busy_for w) (network_up w) (stdout w) (trace w ++ [e]).

Definition print (line : string) : io world unit :=
  fun w => (mkWorld (files w) (lock_busy_for w) (network_up w)
                    (stdout w ++ [line]) (trace w), Ok tt).

Definition set_files (f : gset string) (w : world) : world :=
  mkWorld f (lock_busy_for w) (network_up w) (stdout w) (trace w).

(** [os.path.exists]. *)
Definition exists_ (path : string) (w : world) : bool :=
  bool_decide (path ∈ files w).

Definition get_zipfile_path (data_path : string) : string :=
  path_join data_path ZIP_FILENAME.

Definition get_dirpath (data_path : string) : string :=
  path_join data_path DIRNAME.

Definition all_hdf5_exists (data_path : string) (w : world) : bool :=
  forallb (fun filename => exists_ (path_join data_path filename) w)
          [TRAIN_FILENAME; VAL_FILENAME].

Definition download (data_path : string) : io world unit :=
  fun w =>
    if exists_ (get_zipfile_path data_path) w
    then print "Zip file already downloaded" w
    else
      let url := "http://cs231n.stanford.edu/tiny-imagenet-200.zip"%string in
      if network_up w
      then (emit (Download url (get_zipfile_path data_path))
              (set_files ({[ get_zipfile_path data_path ]} ∪ files w) w), Ok tt)
      else (w, Raise URLError).

Definition unzip (data_path : string) : io world unit :=
  bind_io (print "Unzipping files...") (fun _ =>
  bind_io (fun w =>
    if exists_ (get_zipfile_path data_path) w
    then (emit (Extract (get_zipfile_path data_path) data_path)
            (set_files ({[ get_dirpath data_path ]} ∪ files w) w), Ok tt)
    else (w, Raise (FileNotFoundError (get_zipfile_path data_path)))) (fun _ =>
  print "Done")).

(** A path is inside the tree rooted at [dir]. *)
Definition under (dir path : string) : bool :=
  bool_decide (path = dir) || String.prefix (dir ++ "/") path.

(** [shutil.rmtree] raises when the directory is not there. *)
Definition clean (data_path : string) : io world unit :=
  bind_io (print "Deleting unzipped files...") (fun _ w =>
    if exists_ (get_dirpath data_path) w
    then (emit (Rmtree (get_dirpath data_path))
            (set_files (filter (fun p => under (get_dirpath data_path) p = false) (files w)) w),
          Ok tt)
    else (w, Raise (FileNotFoundError (get_dirpath data_path)))).

Definition create_hdf5_file (file_path : string) (n : Z) : io world unit :=
  fun w => (emit (CreateHDF5 file_path n) (set_files ({[ file_path ]} ∪ files w) w), Ok tt).

Definition create_hdf5 (data_path : string) : io world unit :=
  bind_io (create_hdf5_file (path_join data_path "tinyimagenet_train.h5") 100000) (fun _ =>
  create_hdf5_file (path_join data_path "tinyimagenet_val.h5") 10000).

(** [FileLock(path, timeout=timeout).__enter__]: a negative timeout waits
    for ever; otherwise the wait is given up after [timeout] seconds.  The
    lock file is created when the lock is taken, and stays. *)
Definition acquire (lock_path : string) (timeout : Z) : io world unit :=
  fun w =>
    if (0 <=? timeout) && (timeout <? lock_busy_for w)
    then (w, Raise Timeout)
    else (emit (AcquireLock lock_path) (set_files ({[ lock_path ]} ∪ files w) w), Ok tt).

Definition release (lock_path : string) (w : world) : world :=
  emit (ReleaseLock lock_path) w.

Definition is_Timeout (e : exn) : bool :=
  match e with Timeout => true | _ => false end.

(** The handler of [except Timeout]: [print(...)] returns [None], and
    [.format] is looked up on that result. *)
Definition on_timeout (timeout : Z) : io world unit :=
  bind_io (print ("Another process holds the lock since more than {} seconds. "
                  ++ "Will try to load the dataset.")) (fun _ =>
  raise (AttributeError "'NoneType' object has no attribute 'format'")).

Definition build_dataset (data_path : string) (timeout : Z) : io world unit :=
  fun w =>
    if all_hdf5_exists data_path w then (w, Ok tt)
    else
      try_except_finally
        (with_ (acquire (path_join data_path (DIRNAME ++ ".lock")) timeout)
               (release (path_join data_path (DIRNAME ++ ".lock")))
               (bind_io (download data_path) (fun _ =>
                bind_io (unzip data_path) (fun _ =>
                create_hdf5 data_path))))
        is_Timeout
        (on_timeout timeout)
        (clean data_path)
        w.

(** The index populations handed to the two [SubsetRandomSampler]s of
    [build], for a validation container of length [n]. *)
Definition valid_indices (n : nat) : list nat :=
  range 0 (Z.to_nat (int_of_float (truediv (Z.of_nat n) 2))).

Definition test_indices (n : nat) : list nat :=
  range (Z.to_nat (int_of_float (truediv (Z.of_nat n) 2))) n.

End TinyImagenet.

(** ** The training driver ([train.py]) *)

Module Train.
Import Py LRSchedule.

Definition TIME_BUFFER : Q := 60 * 5.

(** The names bound at module level of [train.py]: its imports, its
    constant, its functions and its class. *)
Definition module_names : list string :=
  ["bisect_right"; "datetime"; "argparse"; "pprint"; "random"; "numpy";
   "Events"; "create_supervised_trainer"; "create_supervised_evaluator";
   "Timer"; "Accuracy"; "Loss"; "merge_configs"; "unflatten"; "mahler";
   "torch"; "F"; "tqdm"; "yaml"; "build_dataset"; "build_model";
   "load_checkpoint"; "save_checkpoint"; "build_optimizer"; "TIME_BUFFER";
   "update"; "update_lr"; "MultiStepLR"; "build_config"; "build_experiment";
   "main"; "train"; "seed"]%string.

(** [dict(loss=..., error_rate=...)] and [dict(epoch=..., <name>=...)]. *)
Record partition_stats : Type := mkPartitionStats {
  loss : Q;
  error_rate : Q
}.

Record epoch_stats : Type := mkEpochStats {
  stats_epoch : Z;
  stats_parts : list (string * partition_stats)
}.

(** [engine.state]. *)
Record engine_state : Type := mkEngine {
  epoch : Z;
  iteration : Z;
  output : Q;
  last_checkpoint : Q
}.

(** The part of the configuration that [build_experiment] reads itself. *)
Record config : Type := mkConfig {
  model_seed : option Z;
  sampler_seed : option Z;
  lr_scheduler_config : option (gmap string (list Z))
}.

Record seeds : Type := mkSeeds {
  seeds_model : Z;
  seeds_sampler : Z
}.

(** The value [train] returns. *)
Record history : Type := mkHistory {
  last : epoch_stats;
  all : list epoch_stats
}.

Section Driver.
(** The parameters of the network are opaque. *)
Context {Net : Type}.

(** [evaluator.run(dataset[name]).metrics]: the loss and the accuracy of
    the network on a partition; the samplers draw from the generator. *)
Variable evaluate : Net -> string -> Z -> (Q * Q) * Z.

(** One pass of the engine over [dataset['train']]: the updated
    network, the output of the last iteration and the generator. *)
Variable run_once : Net -> list Q -> Z -> Net * Q * Z.

(** [len(dataset['train'])], the number of iterations of an epoch. *)
Variable batches : Z.

(** [torch.cuda.is_available()]. *)
Variable cuda_available : bool.

(** The checkpoint record kept by the tracking client. *)
Record checkpoint : Type := mkCheckpoint {
  ck_net : Net;
  ck_lrs : list Q;
  ck_scheduler : option MultiStepLR;
  ck_epoch : Z;
  ck_iteration : Z;
  ck_all_stats : list epoch_stats
}.

(** What [load_checkpoint] returns when there is a checkpoint. *)
Record metadata : Type := mkMetadata {
  md_epoch : Z;
  md_iteration : Z;
  md_all_stats : list epoch_stats
}.

(** The world of a run: the checkpoint of this task in the store of the
    tracking client, the successive readings of [datetime.utcnow()] in
    seconds, the state of the random generators, the two cudnn flags,
    the network and its mode, the rates of the optimizer, the scheduler,
    the list [all_stats] and the state of the engine. *)
Record world : Type := mkWorld {
  store : option checkpoint;
  clock : nat -> Q;
  tick : nat;
  rng : Z;
  cudnn_benchmark : bool;
  cudnn_deterministic : bool;
  net : Net;
  training : bool;
  opt_lrs : list Q;
  lr_scheduler : option MultiStepLR;
  all_stats : list epoch_stats;
  engine : engine_state
}.

Definition set_store (x : option checkpoint) (w : world) : world :=
  mkWorld x (clock w) (tick w) (rng w) (cudnn_benchmark w) (cudnn_deterministic w)
          (net w) (training w) (opt_lrs w) (lr_scheduler w) (all_stats w) (engine w).

Definition set_tick (x : nat) (w : world) : world :=
  mkWorld (store w) (clock w) x (rng w) (cudnn_benchmark w) (cudnn_deterministic w)
          (net w) (training w) (opt_lrs w) (lr_scheduler w) (all_stats w) (engine w).

Definition set_rng (x : Z) (w : world) : world :=
  mkWorld (store w) (clock w) (tick w) x (cudnn_benchmark w) (cudnn_deterministic w)
          (net w) (training w) (opt_lrs w) (lr_scheduler w) (all_stats w) (engine w).

Definition set_cudnn (b d : bool) (w : world) : world :=
  mkWorld (store w) (clock w) (tick w) (rng w) b d
          (net w) (training w) (opt_lrs w) (lr_scheduler w) (all_stats w) (engine w).

Definition set_net (x : Net) (w : world) : world :=
  mkWorld (store w) (clock w) (tick w) (rng w) (cudnn_benchmark w) (cudnn_deterministic w)
          x (training w) (opt_lrs w) (lr_scheduler w) (all_stats w) (engine w).

Definition set_training (x : bool) (w : world) : world :=
  mkWorld (store w) (clock w) (tick w) (rng w) (cudnn_benchmark w) (cudnn_deterministic w)
          (net w) x (opt_lrs w) (lr_scheduler w) (all_stats w) (engine w).

Definition set_opt_lrs (x : list Q) (w : world) : world :=
  mkWorld (store w) (clock w) (tick w) (rng w) (cudnn_benchmark w) (cudnn_deterministic w)
          (net w) (training w) x (lr_scheduler w) (all_stats w) (engine w).

Definition set_lr_scheduler (x : option MultiStepLR) (w : world) : world :=
  mkWorld (store w) (clock w) (tick w) (rng w) (cudnn_benchmark w) (cudnn_deterministic w)
          (net w) (training w) (opt_lrs w) x (all_stats w) (engine w).

Definition set_all_stats (x : list epoch_stats) (w : world) : world :=
  mkWorld (store w) (clock w) (tick w) (rng w) (cudnn_benchmark w) (cudnn_deterministic w)
          (net w) (training w) (opt_lrs w) (lr_scheduler w) x (engine w).

Definition set_engine (x : engine_state) (w : world) : world :=
  mkWorld (store w) (clock w) (tick w) (rng w) (cudnn_benchmark w) (cudnn_deterministic w)
          (net w) (training w) (opt_lrs w) (lr_scheduler w) (all_stats w) x.

(** [datetime.utcnow()]: the next reading of the clock. *)
Definition utcnow (w : world) : Q * world :=
  (clock w (tick w), set_tick (S (tick w)) w).

(** Modelled from the spec: [repro.model.base.load_checkpoint], which is
    not among the sources.  It reloads the checkpoint if one is present:
    the parameters of the network, of the optimizer and of the schedule
    are restored and the counters and the metric history are returned;
    without a checkpoint it returns [None]. *)
Definition load_checkpoint (w : world) : option metadata * world :=
  match store w with
  | Some ck =>
      (Some (mkMetadata (ck_epoch ck) (ck_iteration ck) (ck_all_stats ck)),
       set_lr_scheduler (ck_scheduler ck) (set_opt_lrs (ck_lrs ck) (set_net (ck_net ck) w)))
  | None => (None, w)
  end.

(** Modelled from the spec: [repro.model.base.save_checkpoint], which is
    not among the sources.  It persists a snapshot of the network, the
    optimizer and the schedule with the counters and the history. *)
Definition save_checkpoint (ep it : Z) (stats : list epoch_stats) (w : world) : world :=
  set_store (Some (mkCheckpoint (net w) (opt_lrs w) (lr_scheduler w) ep it stats)) w.

(** Modelled from the spec: [clear_checkpoint], which is defined nowhere
    in the sources.  It deletes the checkpoint of the task. *)
Definition clear_checkpoint (w : world) : world := set_store None w.

(** [seed(seed)]: the four calls that would seed the generators are
    comments; what is left sets the cudnn flags when a GPU is there. *)
Definition seed (s : Z) (w : world) : world :=
  if cuda_available then set_cudnn true false w else w.

(** The loop over the partitions in [trainer_save_checkpoint]. *)
Fixpoint evaluate_partitions (names : list string) (compute_error_rates : list string)
    (w : world) : list (string * partition_stats) * world :=
  match names with
  | [] => ([], w)
  | name :: rest =>
      if bool_decide (name ∈ compute_error_rates)
      then
        let '((nll, accuracy), g) := evaluate (net w) name (rng w) in
        let '(parts, w') := evaluate_partitions rest compute_error_rates (set_rng g w) in
        ((name, mkPartitionStats nll (1 - accuracy)%Q) :: parts, w')
      else evaluate_partitions rest compute_error_rates w
  end.

(** What one partition contributes to the entry of an epoch: the loss, and
    one minus the accuracy, that the evaluator reports for it on network
    [n]. *)
Definition reported (n : Net) (part : string * partition_stats) : Prop :=
  exists g, snd part = mkPartitionStats (fst (fst (evaluate n (fst part) g)))
                                        (1 - snd (fst (evaluate n (fst part) g)))%Q.

(** The handler of [EPOCH_COMPLETED]; the line it prints is left out. *)
Definition trainer_save_checkpoint (compute_error_rates : list string) (w : world) : world :=
  let w := set_training false w in
  let '(parts, w) :=
    evaluate_partitions ["train"; "valid"; "test"]%string compute_error_rates w in
  let stats := mkEpochStats (epoch (engine w)) parts in
  let w := set_all_stats (all_stats w ++ [stats]) w in
  let '(now, w) := utcnow w in
  if Qlt_le_dec TIME_BUFFER (now - last_checkpoint (engine w))
  then
    let w := save_checkpoint (epoch (engine w)) (iteration (engine w)) (all_stats w) w in
    let '(now', w) := utcnow w in
    set_engine (mkEngine (epoch (engine w)) (iteration (engine w)) (output (engine w)) now') w
  else w.

(** The handler of [STARTED]; the line it prints is left out. *)
Definition trainer_load_checkpoint (compute_error_rates : list string) (w : world) : world :=
  let '(now, w) := utcnow w in
  let w := set_engine (mkEngine (epoch (engine w)) (iteration (engine w))
                                (output (engine w)) now) w in
  let '(md, w) := load_checkpoint w in
  match md with
  | Some md =>
      let w := set_engine (mkEngine (md_epoch md) (md_iteration md)
                                    (output (engine w)) (last_checkpoint (engine w))) w in
      set_all_stats (all_stats w ++ md_all_stats md) w
  | None =>
      let w := set_engine (mkEngine 0 0 0 (last_checkpoint (engine w))) w in
      trainer_save_checkpoint compute_error_rates w
  end.

(** The handler of [EPOCH_STARTED]. *)
Definition trainer_seeding (sd : seeds) (w : world) : world :=
  let w :=
    match lr_scheduler w with
    | Some s => let '(s', lrs) := step s in set_opt_lrs lrs (set_lr_scheduler (Some s') w)
    | None => w
    end in
  let w := seed (seeds_sampler sd + epoch (engine w)) w in
  set_training true w.

(** The engine of the training-loop library, [trainer.run(data,
    max_epochs)]: a fresh state, [STARTED], then while
    [epoch < max_epochs]: count the epoch, [EPOCH_STARTED], one pass over
    the data, [EPOCH_COMPLETED]. *)
Definition run_epoch (sd : seeds) (compute_error_rates : list string) (w : world) : world :=
  let e := engine w in
  let w := set_engine (mkEngine (epoch e + 1) (iteration e) (output e) (last_checkpoint e)) w in
  let w := trainer_seeding sd w in
  let '(n, out, g) := run_once (net w) (opt_lrs w) (rng w) in
  let e := engine w in
  let w := set_engine (mkEngine (epoch e) (iteration e + batches) out (last_checkpoint e))
                      (set_rng g (set_net n w)) in
  trainer_save_checkpoint compute_error_rates w.

Definition run (sd : seeds) (compute_error_rates : list string) (max_epochs : Z)
    (w : world) : world :=
  let w := set_engine (mkEngine 0 0 0 0) w in
  let w := trainer_load_checkpoint compute_error_rates w in
  Nat.iter (Z.to_nat (max_epochs - epoch (engine w))) (run_epoch sd compute_error_rates) w.

(** The scheduler part of [build_experiment]:
<<
    if lr_scheduler_config:
        milestones = lr_scheduler_config['milestones']
        div_first_epoch = milestones[0]
        milestones = milestones[1:]
        lr_scheduler = MultiStepLR(
            optimizer, milestones, gamma=0.1,
            div_first_epoch=div_first_epoch, last_epoch=-1)
    else:
        lr_scheduler = None
>>
    An empty mapping is false. *)
Definition build_lr_scheduler (cfg : option (gmap string (list Z))) (base : list Q)
    : result (option (MultiStepLR * list Q)) :=
  match cfg with
  | None => Ok None
  | Some d =>
      if bool_decide (d = ∅) then Ok None
      else
        match d !! "milestones"%string with
        | None => Raise (KeyError "milestones")
        | Some milestones =>
            match milestones with
            | [] => Raise IndexError
            | div_first_epoch :: milestones =>
                bind (MultiStepLR_init base milestones (1 # 10) div_first_epoch (-1))
                     (fun r => Ok (Some r))
            end
        end
  end.

(** [build_experiment]: the dataset, the network and the optimizer come
    from builders outside this file and are in the world already. *)
Definition build_experiment (cfg : config) : io world seeds :=
  fun w =>
    match model_seed cfg with
    | None => (w, Raise (ValueError "model_seed must be defined"))
    | Some ms =>
        match sampler_seed cfg with
        | None => (w, Raise (ValueError "sampler_seed must be defined"))
        | Some ss =>
            if cuda_available
            then
              let w := seed ss w in
              let w := seed ms w in
              match build_lr_scheduler (lr_scheduler_config cfg) (opt_lrs w) with
              | Raise e => (w, Raise e)
              | Ok None => (set_lr_scheduler None w, Ok (mkSeeds ms ss))
              | Ok (Some (s, lrs)) =>
                  (set_opt_lrs lrs (set_lr_scheduler (Some s) w), Ok (mkSeeds ms ss))
              end
            else (w, Raise (RuntimeError "GPU not available"))
        end
    end.

(** [train]: the experiment is built, the engine runs, and then the
    name [clear_checkpoint] is evaluated in the globals of the module. *)
Definition train (cfg : config) (max_epochs : Z) (compute_error_rates : list string)
    : io world history :=
  bind_io (build_experiment cfg) (fun sd w =>
    let w := set_all_stats [] w in
    let w := run sd compute_error_rates max_epochs w in
    match lookup_name module_names "clear_checkpoint" with
    | Raise e => (w, Raise e)
    | Ok _ =>
        let w := clear_checkpoint w in
        match List.last (map Some (all_stats w)) None with
        | None => (w, Raise IndexError)
        | Some l => (w, Ok (mkHistory l (all_stats w)))
        end
    end).

End Driver.

End Train.

(** ** The batch submission script ([bin/0.benchmark/zoo/save.py]) *)

Module Save.
Import Py.

Definition EXPERIMENT : string := "benchmark".

Definition orion_template : string :=
  "orion hunt -n {experiment};{dataset};{model};{version} --config /configs/orion.core/orion_config.yaml".

Definition kleio_template : string :=
  "kleio run --allow-host-changes --config /config/kleio.core/kleio_config.yaml --tags {experiment};{dataset};{model};{version}".

Definition script_template : string :=
  "python3.6 /repos/sgd-space/src/sgdad/train.py --config={file_path} "
  ++ "--model-seed 1 --sampler-seed 1 --epochs 300".

Definition commandline_template : string := "{orion} {kleio} {script}".

(** The names bound at module level of [save.py]. *)
Definition module_names : list string :=
  ["asyncio"; "argparse"; "os"; "execute"; "EXPERIMENT"; "orion_template";
   "kleio_template"; "script_template"; "commandline_template"; "parse_args";
   "get_instances"; "main"]%string.

(** What [parse_args] returns. *)
Record args : Type := mkArgs {
  configs : string;
  version : string;
  datasets : option (list string);
  models : option (list string);
  print_only : bool
}.

(** The configuration tree as the script sees it: [os.listdir] and
    [os.path.isdir].  [listdir] is given for every path; on a path that is
    not a directory, where [os.listdir] raises, a tree has no entries. *)
Record tree : Type := mkTree {
  listdir : string -> list string;
  isdir : string -> bool
}.

(** The world of the script: the lines printed and the command lines
    handed to a subprocess. *)
Record world : Type := mkWorld {
  stdout : list string;
  spawned : list string
}.

(** [names and x not in names]: an absent or empty selection keeps all. *)
Definition skipped (names : option (list string)) (x : string) : bool :=
  match names with
  | None | Some [] => false
  | Some l => negb (bool_decide (x ∈ l))
  end.

Definition get_instances (fs : tree) (configs_root : string)
    (datasets models : option (list string)) (experiment : string)
    : list (string * string * string) :=
  let possible_datasets :=
    List.filter (fun dataset => isdir fs (path_join_all configs_root [experiment; dataset]))
                (listdir fs (path_join configs_root experiment)) in
  flat_map (fun dataset =>
    if skipped datasets dataset then []
    else
      let possible_models :=
        map (drop_last 5)
            (List.filter (fun model => bool_decide (last_component model = "yaml"%string))
                         (listdir fs (path_join_all configs_root [experiment; dataset]))) in
      flat_map (fun model =>
        if skipped models model then []
        else [(dataset, model,
               path_join_all configs_root [experiment; dataset; (model ++ ".yaml")%string])])
        possible_models)
    possible_datasets.

(** Modelled from the spec: [sgdad.utils.commandline.execute], which is not
    among the sources.  With [print_only] the generated command line is
    only printed; otherwise it is executed in a subprocess.  The call
    builds a coroutine, which acts when the event loop runs it. *)
Definition execute (commandline : string) (print_only : bool) : io world unit :=
  fun w =>
    if print_only
    then (mkWorld (stdout w ++ [commandline]) (spawned w), Ok tt)
    else (mkWorld (stdout w) (spawned w ++ [commandline]), Ok tt).

Definition tags (dataset model version : string) : gmap string string :=
  <["experiment" := EXPERIMENT]> (<["dataset" := dataset]>
    (<["model" := model]> (<["version" := version]> ∅)))%string.

(** The body of the loop of [main] for one instance.  The arguments of
    [script_template.format] are evaluated before the call: [file_path],
    then the global name [data_wrapper_level]; the template has no field of
    that name, so the value would not be used.  [commandline_template]
    is formatted with the two keywords [kleio] and [script]. *)
Definition commandline_of (globals : list string) (version : string)
    (instance : string * string * string) : result string :=
  let '(dataset, model, file_path) := instance in
  bind (format orion_template (tags dataset model version)) (fun orion =>
  bind (format kleio_template (tags dataset model version)) (fun kleio =>
  bind (lookup_name globals "data_wrapper_level") (fun _ =>
  bind (format script_template (<["file_path" := file_path]> ∅)%string) (fun script =>
  format commandline_template (<["kleio" := kleio]> (<["script" := script]> ∅))%string)))).

Fixpoint collect (globals : list string) (a : args)
    (instances : list (string * string * string)) (futures : list (io world unit))
    : result (list (io world unit)) :=
  match instances with
  | [] => Ok futures
  | instance :: rest =>
      bind (commandline_of globals (version a) instance) (fun commandline =>
      collect globals a rest (futures ++ [execute commandline (print_only a)]))
  end.

(** [loop.run_until_complete] on the gathered futures: the coroutines
    taken in the order of the list. *)
Fixpoint gather (futures : list (io world unit)) : io world unit :=
  match futures with
  | [] => ret tt
  | f :: rest => bind_io f (fun _ => gather rest)
  end.

Definition main_with (globals : list string) (fs : tree) (a : args) : io world unit :=
  fun w =>
    match collect globals a
            (get_instances fs (configs a) (datasets a) (models a) "0.benchmark") [] with
    | Raise e => (w, Raise e)
    | Ok futures => gather futures w
    end.

Definition main (fs : tree) (a : args) : io world unit :=
  main_with module_names fs a.

(** The command line the three templates describe: each sub-command
    formatted with the tokens of the instance, joined by single spaces. *)
Definition expected_commandline (version : string)
    (instance : string * string * string) : result string :=
  let '(dataset, model, file_path) := instance in
  bind (format orion_template (tags dataset model version)) (fun orion =>
  bind (format kleio_template (tags dataset model version)) (fun kleio =>
  bind (format script_template (<["file_path" := file_path]> ∅)%string) (fun script =>
  Ok (orion ++ " " ++ kleio ++ " " ++ script)%string))).

End Save.

(** ** Sample inputs, used to run the definitions *)

Module Samples.
Import Py.

(** A target directory that holds both containers. *)
Definition prepared : TinyImagenet.world :=
  TinyImagenet.mkWorld
    {[ "/data/tinyimagenet_train.h5"; "/data/tinyimagenet_val.h5" ]}%string
    0 true [] [].

(** An empty target directory whose lock another process keeps for an
    hour. *)
Definition locked : TinyImagenet.world :=
  TinyImagenet.mkWorld ∅ 3600 true [] [].

(** The same, with the tree that the other process has extracted. *)
Definition locked_extracted : TinyImagenet.world :=
  TinyImagenet.mkWorld {[ "/data/tiny-imagenet-200" ]}%string 3600 true [] [].

(** An empty target directory, nobody holding the lock, with and without
    a network. *)
Definition empty_dir : TinyImagenet.world :=
  TinyImagenet.mkWorld ∅ 0 true [] [].

Definition offline : TinyImagenet.world :=
  TinyImagenet.mkWorld ∅ 0 false [] [].

(** A network without parameters: every evaluation gives loss 0 and
    accuracy 1, and nothing draws from the generator. *)
Definition evaluate0 (n : unit) (name : string) (g : Z) : (Q * Q) * Z := ((0%Q, 1%Q), g).

Definition run_once0 (n : unit) (lrs : list Q) (g : Z) : unit * Q * Z := (n, 0%Q, g).

(** A clock that stands still, and one that advances by 301 seconds from
    one reading to the next. *)
Definition clock_still (k : nat) : Q := 0.

Definition clock_301 (k : nat) : Q := inject_Z (301 * Z.of_nat k).

(** A run that starts with an empty store. *)
Definition fresh (clock : nat -> Q) (g : Z) : @Train.world unit :=
  Train.mkWorld None clock 0 g false false tt false [1%Q] None [] (Train.mkEngine 0 0 0 0).

Definition config1 : Train.config := Train.mkConfig (Some 1) (Some 1) None.

(** The same seeds with [lr_scheduler: {milestones: [0, 60, 120]}]. *)
Definition config_scheduled : Train.config :=
  Train.mkConfig (Some 1) (Some 1)
    (Some {[ "milestones"%string := [0; 60; 120] ]}).

(** The default of [compute_error_rates]. *)
Definition partitions : list string := ["train"; "valid"]%string.

(** [lr_scheduler: {milestones: [0, 60, 120]}]. *)
Definition scheduler_config : gmap string (list Z) :=
  {[ "milestones"%string := [0; 60; 120] ]}.

(** A run that starts with an empty store and the scheduler that
    [build_experiment] constructs from [scheduler_config]. *)
Definition scheduled : @Train.world unit :=
  Train.mkWorld None clock_301 0 0 false false tt false [1%Q]
    (Some (LRSchedule.mkMultiStepLR [60; 120] (1 # 10) (-1) [1%Q] 0)) []
    (Train.mkEngine 0 0 0 0).

(** A run that finds the checkpoint of an earlier run, taken at epoch 2. *)
Definition interrupted : @Train.world unit :=
  Train.mkWorld
    (Some (Train.mkCheckpoint tt [1%Q] None 2 20
             [Train.mkEpochStats 0 []; Train.mkEpochStats 1 []; Train.mkEpochStats 2 []]))
    clock_still 0 0 false false tt false [1%Q] None [] (Train.mkEngine 0 0 0 0).

(** [configs/0.benchmark/mnist/lenet.yaml] and nothing else. *)
Definition one_config : Save.tree :=
  Save.mkTree
    (fun p => if bool_decide (p = "configs/0.benchmark"%string) then ["mnist"%string]
              else if bool_decide (p = "configs/0.benchmark/mnist"%string)
                   then ["lenet.yaml"%string]
                   else [])
    (fun p => bool_decide (p = "configs/0.benchmark/mnist"%string)).

(** [--version v1 --print-only]. *)
Definition print_only_args : Save.args :=
  Save.mkArgs "configs" "v1" None None true.

End Samples.

(** * Properties *)

(** ** Binary search *)

Section Bisect.
Import Py.

Lemma is_sorted_cons x l :
  is_sorted (x :: l) = true ->
  is_sorted l = true /\ forall y, In y l -> x <= y.
Proof.
  revert x. induction l as [|y l IH]; intros x H.
  - split; [reflexivity | intros ? []].
  - cbn [is_sorted] in H. apply andb_prop in H as [Hxy Hs].
    apply Z.leb_le in Hxy. split; [exact Hs|].
    intros z [<-|Hz]; [exact Hxy|].
    destruct (IH y Hs) as [_ Hy]. specialize (Hy z Hz). lia.
Qed.

Lemma is_sorted_monotone a : is_sorted a = true -> monotone a.
Proof.
  induction a as [|x l IH]; intros Hs i j Hij.
  - simpl in Hij. lia.
  - apply is_sorted_cons in Hs as [Hs Hx].
    destruct i as [|i], j as [|j]; simpl in *; try lia.
    + apply Hx, nth_In. lia.
    + apply IH; [exact Hs | lia].
Qed.

(** The loop keeps its window, and on a sorted list it stops at the
    boundary between the elements [<= x] and the elements [> x]. *)
Lemma bisect_loop_spec a x lo hi :
  monotone a ->
  (lo <= hi <= length a)%nat ->
  (forall i, (i < lo)%nat -> nth i a 0 <= x) ->
  (forall i, (hi <= i < length a)%nat -> x < nth i a 0) ->
  let r := bisect_loop a x lo hi in
  (lo <= r <= hi)%nat /\
  (forall i, (i < r)%nat -> nth i a 0 <= x) /\
  (forall i, (r <= i < length a)%nat -> x < nth i a 0).
Proof.
  intros Hm. funelim (bisect_loop a x lo hi); intros Hb Hlo Hhi; cbn zeta.
  - split; [lia | split; [exact Hlo|]].
    intros i Hi. apply Hhi. lia.
  - assert (Hmid : (lo <= (lo + hi) / 2 < hi)%nat)
      by (split; [apply Nat.div_le_lower_bound | apply Nat.Div0.div_lt_upper_bound]; lia).
    match goal with E : (x <? _) = true |- _ => apply Z.ltb_lt in E; rename E into Hx end.
    match goal with
    | IH : monotone _ -> _ |- _ => destruct (IH Hm) as (Hr & Hl & Hu)
    end.
    + lia.
    + exact Hlo.
    + intros i Hi. specialize (Hm ((lo + hi) / 2)%nat i). lia.
    + split; [lia | split; assumption].
  - assert (Hmid : (lo <= (lo + hi) / 2 < hi)%nat)
      by (split; [apply Nat.div_le_lower_bound | apply Nat.Div0.div_lt_upper_bound]; lia).
    match goal with E : (x <? _) = false |- _ => apply Z.ltb_ge in E; rename E into Hx end.
    match goal with
    | IH : monotone _ -> _ |- _ => destruct (IH Hm) as (Hr & Hl & Hu)
    end.
    + lia.
    + intros i Hi. specialize (Hm i ((lo + hi) / 2)%nat). lia.
    + exact Hhi.
    + split; [lia | split; assumption].
Qed.

(** [a[mid]] is always read inside the list. *)
Lemma bisect_loop_bounds (lo hi len : nat) :
  (lo < hi <= len)%nat -> ((lo + hi) / 2 < len)%nat.
Proof.
  intros H.
  assert (((lo + hi) / 2 < hi)%nat) by (apply Nat.Div0.div_lt_upper_bound; lia).
  lia.
Qed.

Lemma count_le_boundary a x r :
  (r <= length a)%nat ->
  (forall i, (i < r)%nat -> nth i a 0 <= x) ->
  (forall i, (r <= i < length a)%nat -> x < nth i a 0) ->
  count_le a x = r.
Proof.
  unfold count_le. revert r. induction a as [|y l IH]; intros r Hr Hl Hu.
  - simpl in *. lia.
  - destruct r as [|r].
    + cbn [List.filter].
      pose proof (Hu 0%nat ltac:(simpl; lia)) as H0. simpl in H0.
      destruct (y <=? x) eqn:E; [apply Z.leb_le in E; lia|].
      apply (IH 0%nat); [lia | intros; lia |].
      intros i Hi. apply (Hu (S i)). simpl. lia.
    + cbn [List.filter].
      pose proof (Hl 0%nat ltac:(lia)) as H0. simpl in H0.
      destruct (y <=? x) eqn:E; [|apply Z.leb_gt in E; lia].
      cbn [length]. f_equal. apply IH.
      * simpl in Hr. lia.
      * intros i Hi. apply (Hl (S i)). lia.
      * intros i Hi. apply (Hu (S i)). simpl. lia.
Qed.

(** On a sorted list, [bisect_right] is the number of elements [<= x]. *)
Lemma bisect_right_count a x :
  is_sorted a = true -> bisect_right a x = count_le a x.
Proof.
  intros Hs. unfold bisect_right.
  destruct (bisect_loop_spec a x 0 (length a) (is_sorted_monotone a Hs))
    as (Hr & Hl & Hu); try lia.
  symmetry. apply count_le_boundary; [lia | exact Hl | exact Hu].
Qed.

End Bisect.

(** ** The learning-rate schedule *)

Section Schedule.
Import Py LRSchedule.

Lemma get_lr_no_div s e :
  truthy (div_first_epoch s) = false ->
  get_lr (at_epoch s e) =
  map (fun base_lr =>
         (base_lr * gamma s ^ Z.of_nat (bisect_right (milestones s) e))%Q) (base_lrs s).
Proof.
  intros H. unfold get_lr, at_epoch. cbn [last_epoch div_first_epoch milestones gamma base_lrs].
  rewrite H, andb_false_r. reflexivity.
Qed.

Lemma steps_60_120 e :
  bisect_right [60; 120] e =
  if e <? 60 then 0%nat else if e <? 120 then 1%nat else 2%nat.
Proof.
  rewrite bisect_right_count by reflexivity.
  unfold count_le. cbn [List.filter].
  destruct (60 <=? e) eqn:E1, (120 <=? e) eqn:E2, (e <? 60) eqn:E3, (e <? 120) eqn:E4;
    try reflexivity; lia.
Qed.

(** C1, as the code has it.  The schedule built with milestones [60, 120],
    gamma 0.1, base rate 1.0 and no first-epoch division returns, at current
    epoch [e], the rate 1.0 when [0 <= e < 60], 0.1 when [60 <= e < 120],
    and when [120 <= e] the float [1.0 * 0.1 ** 2], which is
    0.010000000000000002, the float next above 0.01; the exponent is the
    step count that the binary search [bisect_right] finds in the
    milestones, 0, 1 and 2 respectively. *)
Theorem C1_multistep_rates (e : Z) (s : Binary64.MultiStepLR) (lrs : list float) :
  Binary64.MultiStepLR_init [1%float] [60; 120] 0.1%float 0 (-1) = Ok (s, lrs) ->
  (0 <= e < 60 ->
     bisect_right (Binary64.milestones s) e = 0%nat /\
     Binary64.get_lr (Binary64.at_epoch s e) = [1%float]) /\
  (60 <= e < 120 ->
     bisect_right (Binary64.milestones s) e = 1%nat /\
     Binary64.get_lr (Binary64.at_epoch s e) = [0.1%float]) /\
  (120 <= e ->
     bisect_right (Binary64.milestones s) e = 2%nat /\
     Binary64.get_lr (Binary64.at_epoch s e) = [0.010000000000000002%float]).
Proof.
  intros H. injection H as <- _.
  unfold Binary64.get_lr, Binary64.at_epoch.
  cbn [Binary64.last_epoch Binary64.div_first_epoch Binary64.milestones Binary64.gamma
       Binary64.base_lrs].
  replace ((e <? 1) && truthy 0) with false by (symmetry; apply andb_false_r).
  rewrite steps_60_120.
  split; [|split]; intros He;
    destruct (e <? 60) eqn:E1, (e <? 120) eqn:E2; try lia; split; reflexivity.
Qed.

Lemma C1_multistep_rates_witness :
  Binary64.get_lr (Binary64.at_epoch
    (Binary64.mkMultiStepLR [60; 120] 0.1%float (-1) [1%float] 0) 59) = [1%float] /\
  Binary64.get_lr (Binary64.at_epoch
    (Binary64.mkMultiStepLR [60; 120] 0.1%float (-1) [1%float] 0) 60) = [0.1%float] /\
  Binary64.get_lr (Binary64.at_epoch
    (Binary64.mkMultiStepLR [60; 120] 0.1%float (-1) [1%float] 0) 119) = [0.1%float] /\
  Binary64.get_lr (Binary64.at_epoch
    (Binary64.mkMultiStepLR [60; 120] 0.1%float (-1) [1%float] 0) 120)
  = [0.010000000000000002%float].
Proof.
  pose (s := Binary64.mkMultiStepLR [60; 120] 0.1%float (-1) [1%float] 0).
  assert (Hs : Binary64.MultiStepLR_init [1%float] [60; 120] 0.1%float 0 (-1)
               = Ok (s, [1%float])) by reflexivity.
  split; [|split; [|split]].
  - apply (C1_multistep_rates 59 s [1%float] Hs). lia.
  - apply (C1_multistep_rates 60 s [1%float] Hs). lia.
  - apply (C1_multistep_rates 119 s [1%float] Hs). lia.
  - apply (C1_multistep_rates 120 s [1%float] Hs). lia.
Defined.

(** C1, as the spec states it, fails: at epoch 120 the rate is not the
    float 0.01. *)
Lemma C1_counterexample :
  ~ (forall (s : Binary64.MultiStepLR) (lrs : list float) (e : Z),
       Binary64.MultiStepLR_init [1%float] [60; 120] 0.1%float 0 (-1) = Ok (s, lrs) ->
       120 <= e ->
       Binary64.get_lr (Binary64.at_epoch s e) = [0.01%float]).
Proof.
  intros H.
  specialize (H (Binary64.mkMultiStepLR [60; 120] 0.1%float (-1) [1%float] 0) [1%float] 120
                eq_refl ltac:(lia)).
  apply (f_equal (fun l => match l with
                           | [x] => PrimFloat.eqb x 0.01%float
                           | _ => true
                           end)) in H.
  vm_compute in H. discriminate H.
Qed.

(** C10.  Whatever is passed for [gamma] and [last_epoch], the constructed
    scheduler has [gamma = 0.1] and [last_epoch = -1], and any other values
    for the two arguments construct the same scheduler. *)
Theorem C10_constructor_ignores_gamma_last_epoch
    (base : list Q) (ms : list Z) (g : Q) (dfe le : Z)
    (s : MultiStepLR) (lrs : list Q) :
  MultiStepLR_init base ms g dfe le = Ok (s, lrs) ->
  gamma s = (1 # 10)%Q /\ last_epoch s = -1 /\
  forall g' le', MultiStepLR_init base ms g' dfe le' = Ok (s, lrs).
Proof.
  unfold MultiStepLR_init, torch_MultiStepLR_init.
  destruct (is_sorted ms); [|discriminate].
  intros H. injection H as <- <-. repeat split.
Qed.

Lemma C10_constructor_ignores_gamma_last_epoch_witness :
  gamma (mkMultiStepLR [60; 120] (1 # 10) (-1) [1%Q] 0) = (1 # 10)%Q /\
  last_epoch (mkMultiStepLR [60; 120] (1 # 10) (-1) [1%Q] 0) = -1 /\
  forall g' le',
    MultiStepLR_init [1%Q] [60; 120] g' 0 le'
    = Ok (mkMultiStepLR [60; 120] (1 # 10) (-1) [1%Q] 0, [1%Q]).
Proof.
  apply (C10_constructor_ignores_gamma_last_epoch [1%Q] [60; 120] (1 # 2) 0 7).
  reflexivity.
Defined.

End Schedule.

(** *** The construction of the scheduler *)

Section Experiment.
Import Py LRSchedule Train.

(** C9.  When a schedule is configured, [build_experiment] takes the first
    element of the configured [milestones] as [div_first_epoch] and
    constructs the scheduler on the remaining elements only: the scheduler
    it leaves has them as its milestones and the first element as its flag,
    and from epoch 1 on the rate is stepped at those boundaries and at no
    other.  (It returns when the remaining elements are in order, and
    raises the constructor's error otherwise.) *)
Theorem C9_first_milestone_is_flag {Net : Type}
    (cfg : config) (w : @world Net) (m ss : Z)
    (d : gmap string (list Z)) (flag : Z) (ms : list Z) :
  model_seed cfg = Some m -> sampler_seed cfg = Some ss ->
  lr_scheduler_config cfg = Some d ->
  d !! "milestones"%string = Some (flag :: ms) ->
  build_lr_scheduler (Some d) (opt_lrs w)
  = bind (MultiStepLR_init (opt_lrs w) ms (1 # 10) flag (-1)) (fun r => Ok (Some r)) /\
  (is_sorted ms = true ->
   exists w', build_experiment true cfg w = (w', Ok (mkSeeds m ss))) /\
  (is_sorted ms = false -> is_ok (snd (build_experiment true cfg w)) = false) /\
  (forall w' sd,
     build_experiment true cfg w = (w', Ok sd) ->
     exists s,
       lr_scheduler w' = Some s /\
       milestones s = ms /\ div_first_epoch s = flag /\
       forall e, 1 <= e ->
         get_lr (at_epoch s e)
         = map (fun base_lr => (base_lr * (1 # 10) ^ Z.of_nat (bisect_right ms e))%Q)
               (opt_lrs w)).
Proof.
  intros Hm Hss Hc Hd.
  assert (Hb : build_lr_scheduler (Some d) (opt_lrs w)
               = bind (MultiStepLR_init (opt_lrs w) ms (1 # 10) flag (-1))
                      (fun r => Ok (Some r))).
  { unfold build_lr_scheduler. rewrite bool_decide_eq_false_2.
    - rewrite Hd. reflexivity.
    - intros ->. rewrite lookup_empty in Hd. discriminate. }
  assert (Hbe : build_experiment true cfg w
                = match MultiStepLR_init (opt_lrs w) ms (1 # 10) flag (-1) with
                  | Ok (s, lrs) =>
                      (set_opt_lrs lrs (set_lr_scheduler (Some s) (seed true m (seed true ss w))),
                       Ok (mkSeeds m ss))
                  | Raise e => (seed true m (seed true ss w), Raise e)
                  end).
  { unfold build_experiment. rewrite Hm, Hss, Hc. cbv zeta.
    replace (opt_lrs (seed true m (seed true ss w))) with (opt_lrs w)
      by (destruct w; reflexivity).
    rewrite Hb.
    destruct (MultiStepLR_init (opt_lrs w) ms (1 # 10) flag (-1)) as [[s lrs]|e];
      reflexivity. }
  split; [exact Hb|].
  rewrite Hbe. unfold MultiStepLR_init, torch_MultiStepLR_init.
  destruct (is_sorted ms).
  - split; [intros _; eexists; reflexivity|]. split; [discriminate|].
    intros w' sd H. injection H as <- _.
    eexists. split; [reflexivity|].
    cbn [milestones div_first_epoch]. split; [reflexivity|]. split; [reflexivity|].
    intros e He. unfold get_lr, at_epoch.
    cbn [last_epoch div_first_epoch milestones gamma base_lrs].
    replace (e <? 1) with false by (symmetry; apply Z.ltb_ge; lia).
    reflexivity.
  - split; [discriminate|]. split; [reflexivity|].
    intros w' sd H. discriminate H.
Qed.

Lemma C9_first_milestone_is_flag_witness :
  exists s,
    lr_scheduler (fst (build_experiment true Samples.config_scheduled
                         (Samples.fresh Samples.clock_still 0))) = Some s /\
    milestones s = [60; 120] /\ div_first_epoch s = 0 /\
    forall e, 1 <= e ->
      get_lr (at_epoch s e)
      = map (fun base_lr => (base_lr * (1 # 10) ^ Z.of_nat (bisect_right [60%Z; 120%Z] e))%Q)
            [1%Q].
Proof.
  destruct (C9_first_milestone_is_flag Samples.config_scheduled
              (Samples.fresh Samples.clock_still 0) 1 1 Samples.scheduler_config 0 [60; 120]
              eq_refl eq_refl eq_refl ltac:(vm_compute; reflexivity))
    as (_ & _ & _ & H).
  apply (H _ (mkSeeds 1 1)). reflexivity.
Defined.

End Experiment.

(** ** The dataset preparer and the partition of the validation container *)

Section Dataset.
Import Py TinyImagenet.

Lemma half_floor (n : nat) :
  Z.to_nat (int_of_float (truediv (Z.of_nat n) 2)) = (n / 2)%nat.
Proof.
  unfold int_of_float, truediv. cbn [Qdiv Qinv Qmult inject_Z Qnum Qden].
  change (Z.pos (1 * 2)) with (Z.of_nat 2). rewrite Z.mul_1_r.
  rewrite Z.quot_div_nonneg by lia.
  rewrite <- Nat2Z.inj_div. apply Nat2Z.id.
Qed.

Lemma range_app (a b c : nat) :
  (a <= b <= c)%nat -> range a b ++ range b c = range a c.
Proof.
  intros H. unfold range.
  replace (c - a)%nat with ((b - a) + (c - b))%nat by lia.
  rewrite seq_app. do 2 f_equal. lia.
Qed.

(** C8.  For a validation container of length [n], the validation
    partition draws from the indices [0 .. floor(n/2) - 1] and the test
    partition from [floor(n/2) .. n - 1]; no index belongs to both, and
    together, in this order, they enumerate every index of the container
    exactly once. *)
Theorem C8_valid_test_partition (n : nat) :
  valid_indices n = seq 0 (n / 2) /\
  test_indices n = seq (n / 2) (n - n / 2) /\
  (forall i, In i (valid_indices n) -> In i (test_indices n) -> False) /\
  valid_indices n ++ test_indices n = seq 0 n /\
  List.NoDup (valid_indices n ++ test_indices n) /\
  (forall i, In i (valid_indices n ++ test_indices n) <-> (i < n)%nat).
Proof.
  assert (Hh : (n / 2 <= n)%nat) by (apply Nat.Div0.div_le_upper_bound; lia).
  unfold valid_indices, test_indices. rewrite half_floor.
  assert (Happ : range 0 (n / 2) ++ range (n / 2) n = seq 0 n).
  { rewrite range_app by lia. unfold range. f_equal. lia. }
  split; [unfold range; f_equal; lia|].
  split; [reflexivity|].
  split.
  { unfold range. intros i H1 H2. apply in_seq in H1, H2. lia. }
  split; [exact Happ|].
  rewrite Happ. split; [apply seq_NoDup|].
  intros i. rewrite in_seq. lia.
Qed.

(** C7.  When both container files exist in the target directory,
    [build_dataset] returns at once and leaves the world as it found it:
    no file appears or disappears, nothing is printed, and the trace of
    downloads, extractions, conversions and deletions does not grow. *)
Theorem C7_build_dataset_noop (data_path : string) (timeout : Z) (w : world) :
  all_hdf5_exists data_path w = true ->
  build_dataset data_path timeout w = (w, Ok tt).
Proof.
  intros H. unfold build_dataset. rewrite H. reflexivity.
Qed.

(** *** A call that returned is not repeated *)

Lemma append_cancel (p a b : string) : (p ++ a = p ++ b)%string -> a = b.
Proof.
  induction p as [|c p IH]; simpl; intros H; [exact H|].
  injection H as H. exact (IH H).
Qed.

Lemma append_assoc (a b c : string) : ((a ++ b) ++ c = a ++ b ++ c)%string.
Proof.
  induction a as [|x a IH]; [reflexivity|].
  change (String x ((a ++ b) ++ c) = String x (a ++ b ++ c))%string.
  f_equal. exact IH.
Qed.

Lemma prefix_append (p a b : string) :
  String.prefix (p ++ a) (p ++ b) = String.prefix a b.
Proof.
  induction p as [|c p IH]; [reflexivity|].
  change (String.prefix (String c (p ++ a)) (String c (p ++ b)) = String.prefix a b)%string.
  cbn [String.prefix].
  destruct (Ascii.ascii_dec c c); [exact IH | congruence].
Qed.

(** A relative name is joined to the directory by a fixed separator. *)
Lemma path_join_relative (a : string) :
  exists sep, forall b, starts_with_slash b = false -> path_join a b = (a ++ sep ++ b)%string.
Proof.
  unfold path_join.
  destruct (bool_decide (a = ""%string) || ends_with_slash a).
  - exists ""%string. intros b ->. reflexivity.
  - exists "/"%string. intros b ->. reflexivity.
Qed.

Lemma container_not_under (data_path filename : string) :
  filename = TRAIN_FILENAME \/ filename = VAL_FILENAME ->
  under (get_dirpath data_path) (path_join data_path filename) = false.
Proof.
  intros Hf. unfold get_dirpath.
  destruct (path_join_relative data_path) as [sep Hsep].
  rewrite (Hsep DIRNAME eq_refl).
  rewrite (Hsep filename) by (destruct Hf as [-> | ->]; reflexivity).
  unfold under. apply orb_false_intro.
  - apply bool_decide_eq_false_2. intros H.
    apply append_cancel, append_cancel in H.
    destruct Hf as [-> | ->]; discriminate H.
  - rewrite !append_assoc, !prefix_append.
    destruct Hf as [-> | ->]; reflexivity.
Qed.

Lemma create_hdf5_files (data_path : string) (w : world) :
  snd (create_hdf5 data_path w) = Ok tt /\
  files (fst (create_hdf5 data_path w))
  = {[ path_join data_path VAL_FILENAME ]} ∪ ({[ path_join data_path TRAIN_FILENAME ]} ∪ files w).
Proof. split; reflexivity. Qed.

Lemma clean_files (data_path : string) (w w' : world) :
  clean data_path w = (w', Ok tt) ->
  files w' = filter (fun p => under (get_dirpath data_path) p = false) (files w).
Proof.
  unfold clean, bind_io, print, exists_. cbn [files].
  destruct (bool_decide (get_dirpath data_path ∈ files w)); [|discriminate].
  intros H. injection H as <-. reflexivity.
Qed.

(** A call that returns leaves both containers in place. *)
Lemma build_dataset_ok_prepared (data_path : string) (timeout : Z) (w w' : world) :
  build_dataset data_path timeout w = (w', Ok tt) ->
  all_hdf5_exists data_path w' = true.
Proof.
  unfold build_dataset.
  destruct (all_hdf5_exists data_path w) eqn:Hall.
  { intros H. injection H as <-. exact Hall. }
  pose proof (container_not_under data_path TRAIN_FILENAME (or_introl eq_refl)) as Ht.
  pose proof (container_not_under data_path VAL_FILENAME (or_intror eq_refl)) as Hv.
  unfold try_except_finally, with_.
  destruct (acquire _ timeout w) as [w1 [[]|e]].
  2:{ destruct (is_Timeout e).
      - unfold on_timeout, bind_io, print, raise.
        destruct (clean data_path _) as [w3 [[]|e3]]; discriminate.
      - destruct (clean data_path w1) as [w3 [[]|e3]]; discriminate. }
  unfold bind_io at 1.
  destruct (download data_path w1) as [w2 [[]|e]].
  2:{ cbn [is_Timeout]. destruct (is_Timeout e).
      - unfold on_timeout, bind_io, print, raise.
        destruct (clean data_path _) as [w3 [[]|e3]]; discriminate.
      - destruct (clean data_path _) as [w3 [[]|e3]]; discriminate. }
  unfold bind_io at 1.
  destruct (unzip data_path w2) as [w3 [[]|e]].
  2:{ destruct (is_Timeout e).
      - unfold on_timeout, bind_io, print, raise.
        destruct (clean data_path _) as [w4 [[]|e4]]; discriminate.
      - destruct (clean data_path _) as [w4 [[]|e4]]; discriminate. }
  destruct (create_hdf5_files data_path w3) as [Hr Hf].
  destruct (create_hdf5 data_path w3) as [w4 r4]. cbn [fst snd] in Hr, Hf. subst r4.
  destruct (clean data_path (release _ w4)) as [w5 [[]|e]] eqn:Hc; [|discriminate].
  intros H. injection H as <-.
  apply clean_files in Hc. unfold release, emit in Hc. cbn [files] in Hc.
  unfold all_hdf5_exists, exists_. cbn [forallb]. rewrite Hc, Hf.
  rewrite andb_true_r. apply andb_true_intro.
  split; apply bool_decide_eq_true_2; apply elem_of_filter;
    (split; [assumption | rewrite !elem_of_union, !elem_of_singleton; auto]).
Qed.

(** X15.  A call that returns normally leaves both containers in place, so
    a second call, with any timeout, returns at once and changes nothing. *)
Lemma build_dataset_twice (data_path : string) (timeout timeout' : Z) (w w' : world) :
  build_dataset data_path timeout w = (w', Ok tt) ->
  build_dataset data_path timeout' w' = (w', Ok tt).
Proof.
  intros H. apply build_dataset_ok_prepared in H.
  unfold build_dataset. rewrite H. reflexivity.
Qed.
(** The time-out path of [build_dataset]: the handler prints the template
    of the message and then raises, and the [finally] clause either lets
    that exception through or replaces it by its own. *)
Lemma build_dataset_timeout (data_path : string) (timeout : Z) (w : world) :
  all_hdf5_exists data_path w = false ->
  0 <= timeout < lock_busy_for w ->
  snd (build_dataset data_path timeout w) =
  Raise (if exists_ (get_dirpath data_path) w
         then AttributeError "'NoneType' object has no attribute 'format'"
         else FileNotFoundError (get_dirpath data_path)).
Proof.
  intros Hex Ht. unfold build_dataset. rewrite Hex.
  unfold try_except_finally, with_, acquire.
  replace ((0 <=? timeout) && (timeout <? lock_busy_for w)) with true
    by (symmetry; apply andb_true_intro; split; [apply Z.leb_le | apply Z.ltb_lt]; lia).
  cbn [is_Timeout]. unfold on_timeout, clean, bind_io, print, raise.
  cbn [files exists_ stdout trace lock_busy_for network_up].
  unfold exists_. cbn [files].
  destruct (bool_decide (get_dirpath data_path ∈ files w)); reflexivity.
Qed.

(** C3.  When the lock is still held after [timeout] seconds,
    [build_dataset] does not return: an exception leaves it, the
    [AttributeError] of the handler when the extracted tree is there and
    the [FileNotFoundError] of the clean-up otherwise. *)
Theorem C3_timeout_raises (data_path : string) (timeout : Z) (w : world) :
  all_hdf5_exists data_path w = false ->
  0 <= timeout < lock_busy_for w ->
  is_ok (snd (build_dataset data_path timeout w)) = false /\
  (exists_ (get_dirpath data_path) w = true ->
   snd (build_dataset data_path timeout w)
   = Raise (AttributeError "'NoneType' object has no attribute 'format'")) /\
  (exists_ (get_dirpath data_path) w = false ->
   snd (build_dataset data_path timeout w)
   = Raise (FileNotFoundError (get_dirpath data_path))).
Proof.
  intros Hex Ht. rewrite (build_dataset_timeout data_path timeout w Hex Ht).
  split; [reflexivity|]. split; intros ->; reflexivity.
Qed.

End Dataset.

(** *** The preparer on the sample directories *)

Section DatasetRuns.
Import Py TinyImagenet Samples.

Lemma C7_build_dataset_noop_witness :
  build_dataset "/data" 600 prepared = (prepared, Ok tt).
Proof.
  apply (C7_build_dataset_noop "/data" 600 prepared).
  vm_compute. reflexivity.
Defined.

Lemma C3_timeout_raises_witness :
  is_ok (snd (build_dataset "/data" 600 locked_extracted)) = false /\
  (exists_ (get_dirpath "/data") locked_extracted = true ->
   snd (build_dataset "/data" 600 locked_extracted)
   = Raise (AttributeError "'NoneType' object has no attribute 'format'")) /\
  (exists_ (get_dirpath "/data") locked_extracted = false ->
   snd (build_dataset "/data" 600 locked_extracted)
   = Raise (FileNotFoundError (get_dirpath "/data"))).
Proof.
  apply (C3_timeout_raises "/data" 600 locked_extracted).
  - vm_compute. reflexivity.
  - simpl. lia.
Defined.

(** What the time-out path leaves behind: the message is printed with its
    placeholder, and the clean-up deletes the tree that the holder of the
    lock has extracted. *)
Example timeout_run :
  build_dataset "/data" 600 locked_extracted
  = (mkWorld ∅ 3600 true
       ["Another process holds the lock since more than {} seconds. Will try to load the dataset.";
        "Deleting unzipped files..."]%string
       [Rmtree "/data/tiny-imagenet-200"],
     Raise (AttributeError "'NoneType' object has no attribute 'format'")).
Proof. vm_compute. reflexivity. Qed.

Example timeout_run_empty :
  snd (build_dataset "/data" 600 locked)
  = Raise (FileNotFoundError "/data/tiny-imagenet-200").
Proof. vm_compute. reflexivity. Qed.

End DatasetRuns.

(** ** The training driver *)

Section Driver.
Import Py LRSchedule Train.

Context {Net : Type}.
Variable evaluate : Net -> string -> Z -> (Q * Q) * Z.
Variable run_once : Net -> list Q -> Z -> Net * Q * Z.
Variable batches : Z.
Variable cuda_available : bool.

(** Evaluation touches the generator and nothing else. *)
Lemma evaluate_partitions_frame (names cer : list string) (w : world) :
  snd (evaluate_partitions evaluate names cer w)
  = set_rng (rng (snd (evaluate_partitions evaluate names cer w))) w.
Proof.
  revert w. induction names as [|name rest IH]; intros w.
  - destruct w; reflexivity.
  - cbn [evaluate_partitions]. destruct (bool_decide (name ∈ cer)); [|apply IH].
    destruct (evaluate (net w) name (rng w)) as [[nll accuracy] g].
    specialize (IH (set_rng g w)).
    destruct (evaluate_partitions evaluate rest cer (set_rng g w)) as [parts w'].
    cbn [snd] in *. rewrite IH. destruct w; reflexivity.
Qed.

(** The entry of an epoch lists the partitions of [names] that are asked
    for, in the order of [names], each with what the evaluator reports. *)
Lemma evaluate_partitions_parts (names cer : list string) (w : @world Net) :
  map fst (fst (evaluate_partitions evaluate names cer w))
  = List.filter (fun name => bool_decide (name ∈ cer)) names /\
  Forall (reported evaluate (net w)) (fst (evaluate_partitions evaluate names cer w)).
Proof.
  revert w. induction names as [|name rest IH]; intros w.
  - split; [reflexivity | constructor].
  - cbn [evaluate_partitions List.filter].
    destruct (bool_decide (name ∈ cer)); [|apply IH].
    destruct (evaluate (net w) name (rng w)) as [[nll accuracy] g] eqn:He.
    destruct (IH (set_rng g w)) as [IH1 IH2].
    destruct (evaluate_partitions evaluate rest cer (set_rng g w)) as [parts w'].
    cbn [fst map] in *. split; [f_equal; exact IH1|].
    constructor; [|exact IH2].
    exists (rng w). cbn [fst snd]. rewrite He. reflexivity.
Qed.

Lemma clear_checkpoint_unbound :
  lookup_name module_names "clear_checkpoint" = Raise (NameError "clear_checkpoint").
Proof. vm_compute. reflexivity. Qed.

(** [seed] does not depend on its argument and leaves the generator. *)
Lemma seed_ignores_argument (s s' : Z) (w : @world Net) :
  seed cuda_available s w = seed cuda_available s' w.
Proof. reflexivity. Qed.

Lemma seed_rng (s : Z) (w : @world Net) : rng (seed cuda_available s w) = rng w.
Proof. unfold seed. destruct cuda_available, w; reflexivity. Qed.

(** C5, as the code has it.  At the start of an epoch the handler calls
    [seed] on [sampler_seed + epoch], and [seed] seeds nothing: the state
    of the random generators after the handler is their state before it,
    and the whole effect of the handler is the same for every sampler
    seed. *)
Theorem C5_seeding_leaves_generators (sd : seeds) (w : @world Net) :
  rng (trainer_seeding cuda_available sd w) = rng w /\
  (forall s, rng (seed cuda_available (s + epoch (engine w)) w) = rng w) /\
  (forall sd', trainer_seeding cuda_available sd' w = trainer_seeding cuda_available sd w).
Proof.
  split; [|split].
  - unfold trainer_seeding, seed.
    destruct (lr_scheduler w) as [s|]; [destruct (step s) as [s' lrs]|];
      destruct cuda_available, w; reflexivity.
  - intros s. apply seed_rng.
  - intros sd'. reflexivity.
Qed.

(** C2, as the code has it.  When the store holds no checkpoint, the
    start handler sets the epoch and iteration counters to zero, evaluates
    and records the statistics of epoch 0 (one entry is appended to the
    history, for epoch 0, with the partitions asked for and what the
    evaluator reports for each), and persists a checkpoint only if the
    clock reading taken after that evaluation is more than [TIME_BUFFER]
    seconds after the one taken when the handler began; otherwise the store
    stays empty. *)
Theorem C2_start_without_checkpoint (cer : list string) (w : @world Net) :
  store w = None ->
  let w' := trainer_load_checkpoint evaluate cer w in
  epoch (engine w') = 0 /\ iteration (engine w') = 0 /\
  ((TIME_BUFFER < clock w (S (tick w)) - clock w (tick w))%Q ->
   exists ck, store w' = Some ck /\ ck_epoch ck = 0 /\ ck_iteration ck = 0 /\
              ck_all_stats ck = all_stats w') /\
  ((clock w (S (tick w)) - clock w (tick w) <= TIME_BUFFER)%Q -> store w' = None) /\
  (exists entry,
     all_stats w' = all_stats w ++ [entry] /\
     stats_epoch entry = 0 /\
     map fst (stats_parts entry)
     = List.filter (fun name => bool_decide (name ∈ cer)) ["train"; "valid"; "test"]%string /\
     Forall (reported evaluate (net w)) (stats_parts entry)).
Proof.
  intros Hs w'. subst w'.
  unfold trainer_load_checkpoint, utcnow, load_checkpoint.
  cbn [store set_tick set_engine engine]. rewrite Hs.
  unfold trainer_save_checkpoint.
  match goal with
  | |- context [evaluate_partitions evaluate ?ns cer ?w0] =>
      pose proof (evaluate_partitions_frame ns cer w0) as Hf;
      destruct (evaluate_partitions_parts ns cer w0) as [Hn Hr];
      destruct (evaluate_partitions evaluate ns cer w0) as [parts w1]
  end.
  cbn [fst snd] in Hf, Hn, Hr. rewrite Hf. unfold utcnow.
  cbn [set_rng set_training set_engine set_all_stats set_tick engine clock tick
       last_checkpoint epoch iteration all_stats store net] in Hr |- *.
  assert (Hentry : exists entry,
            all_stats w ++ [mkEpochStats 0 parts] = all_stats w ++ [entry] /\
            stats_epoch entry = 0 /\
            map fst (stats_parts entry)
            = List.filter (fun name => bool_decide (name ∈ cer))
                          ["train"; "valid"; "test"]%string /\
            Forall (reported evaluate (net w)) (stats_parts entry)).
  { exists (mkEpochStats 0 parts). split; [reflexivity|]. split; [reflexivity|].
    split; [exact Hn | exact Hr]. }
  destruct (Qlt_le_dec TIME_BUFFER (clock w (S (tick w)) - clock w (tick w))) as [Hlt|Hle].
  - cbn. split; [reflexivity|]. split; [reflexivity|]. split; [|split].
    + intros _. eexists. repeat split; reflexivity.
    + intros Hle. exfalso. exact (Qlt_not_le _ _ Hlt Hle).
    + exact Hentry.
  - cbn. split; [reflexivity|]. split; [reflexivity|]. split; [|split].
    + intros Hlt. exfalso. exact (Qlt_not_le _ _ Hlt Hle).
    + intros _. exact Hs.
    + exact Hentry.
Qed.

(** C4, as the code has it.  Once the experiment is built and the engine
    has run, [train] evaluates the name [clear_checkpoint], which the
    module does not bind: it raises [NameError] in the world that the run
    has left, so the checkpoint is not deleted and no history is
    returned. *)
Theorem C4_train_raises_name_error (cfg : config) (max_epochs : Z) (cer : list string)
    (w : @world Net) :
  is_ok (snd (train evaluate run_once batches cuda_available cfg max_epochs cer w)) = false /\
  forall w1 sd,
    build_experiment cuda_available cfg w = (w1, Ok sd) ->
    train evaluate run_once batches cuda_available cfg max_epochs cer w
    = (run evaluate run_once batches cuda_available sd cer max_epochs (set_all_stats [] w1),
       Raise (NameError "clear_checkpoint")).
Proof.
  unfold train, bind_io. rewrite clear_checkpoint_unbound.
  destruct (build_experiment cuda_available cfg w) as [w1 [sd|e]].
  - split; [reflexivity|]. intros w2 sd2 H. injection H as <- <-. reflexivity.
  - split; [reflexivity|]. intros w2 sd2 H. discriminate.
Qed.

End Driver.

(** *** The engine *)

Section Engine.
Import Py LRSchedule Train.

Context {Net : Type}.
Variable evaluate : Net -> string -> Z -> (Q * Q) * Z.
Variable run_once : Net -> list Q -> Z -> Net * Q * Z.
Variable batches : Z.
Variable cuda_available : bool.

Lemma trainer_save_checkpoint_counters (cer : list string) (w : @world Net) :
  epoch (engine (trainer_save_checkpoint evaluate cer w)) = epoch (engine w) /\
  iteration (engine (trainer_save_checkpoint evaluate cer w)) = iteration (engine w) /\
  length (all_stats (trainer_save_checkpoint evaluate cer w)) = S (length (all_stats w)).
Proof.
  unfold trainer_save_checkpoint.
  match goal with
  | |- context [evaluate_partitions evaluate ?ns cer ?w0] =>
      pose proof (evaluate_partitions_frame evaluate ns cer w0) as Hf;
      destruct (evaluate_partitions evaluate ns cer w0) as [parts w1]
  end.
  cbn [snd] in Hf. rewrite Hf. unfold utcnow.
  cbn [set_rng set_training set_engine set_all_stats set_tick engine clock tick
       last_checkpoint epoch iteration all_stats store].
  destruct (Qlt_le_dec _ _); cbn; rewrite length_app; cbn; repeat split; lia.
Qed.

Lemma trainer_seeding_engine (sd : seeds) (w : @world Net) :
  engine (trainer_seeding cuda_available sd w) = engine w /\
  all_stats (trainer_seeding cuda_available sd w) = all_stats w.
Proof.
  unfold trainer_seeding, seed.
  destruct (lr_scheduler w) as [s|]; [destruct (step s) as [s' lrs]|];
    destruct cuda_available, w; split; reflexivity.
Qed.

(** One turn of the loop counts one epoch and [batches] iterations, and
    adds one entry to the history. *)
Lemma run_epoch_counters (sd : seeds) (cer : list string) (w : @world Net) :
  let w' := run_epoch evaluate run_once batches cuda_available sd cer w in
  epoch (engine w') = epoch (engine w) + 1 /\
  iteration (engine w') = iteration (engine w) + batches /\
  length (all_stats w') = S (length (all_stats w)).
Proof.
  cbn zeta. unfold run_epoch.
  set (w0 := set_engine _ w).
  destruct (trainer_seeding_engine sd w0) as [He Ha].
  destruct (run_once _ _ _) as [[n out] g].
  match goal with
  | |- context [trainer_save_checkpoint evaluate cer ?w2] =>
      destruct (trainer_save_checkpoint_counters cer w2) as (H1 & H2 & H3)
  end.
  rewrite H1, H2, H3. cbn [set_engine engine epoch iteration all_stats set_rng set_net].
  rewrite He, Ha. subst w0. destruct w. cbn. repeat split; lia.
Qed.

Lemma iter_run_epoch_counters (sd : seeds) (cer : list string) (k : nat) (w : @world Net) :
  let w' := Nat.iter k (run_epoch evaluate run_once batches cuda_available sd cer) w in
  epoch (engine w') = epoch (engine w) + Z.of_nat k /\
  length (all_stats w') = (k + length (all_stats w))%nat.
Proof.
  cbn zeta. induction k as [|k [IH1 IH2]].
  - cbn. split; lia.
  - rewrite Nat.iter_succ.
    destruct (run_epoch_counters sd cer
                (Nat.iter k (run_epoch evaluate run_once batches cuda_available sd cer) w))
      as (H1 & _ & H3).
    cbn zeta in H1, H3. rewrite H1, H3, IH1, IH2. split; lia.
Qed.

Lemma start_without_checkpoint_counters (cer : list string) (w : @world Net) :
  store w = None ->
  epoch (engine (trainer_load_checkpoint evaluate cer w)) = 0 /\
  length (all_stats (trainer_load_checkpoint evaluate cer w)) = S (length (all_stats w)).
Proof.
  intros Hs. unfold trainer_load_checkpoint, utcnow, load_checkpoint.
  cbn [store set_tick set_engine engine]. rewrite Hs.
  match goal with
  | |- context [trainer_save_checkpoint evaluate cer ?w2] =>
      destruct (trainer_save_checkpoint_counters cer w2) as (H1 & _ & H3)
  end.
  rewrite H1, H3. split; reflexivity.
Qed.

(** From an empty store, the engine runs the [max_epochs] epochs: it stops
    with the epoch counter at [max_epochs] and one entry of history for the
    start and one for each epoch. *)
Lemma run_completes (sd : seeds) (cer : list string) (max_epochs : Z) (w : @world Net) :
  store w = None -> all_stats w = [] -> 0 <= max_epochs ->
  let w' := run evaluate run_once batches cuda_available sd cer max_epochs w in
  epoch (engine w') = max_epochs /\
  length (all_stats w') = S (Z.to_nat max_epochs).
Proof.
  intros Hs Ha Hm. cbn zeta. unfold run.
  set (w0 := set_engine _ w).
  assert (Hs0 : store w0 = None) by (subst w0; destruct w; exact Hs).
  destruct (start_without_checkpoint_counters cer w0 Hs0) as (He & Hl).
  destruct (iter_run_epoch_counters sd cer
              (Z.to_nat (max_epochs - epoch (engine (trainer_load_checkpoint evaluate cer w0))))
              (trainer_load_checkpoint evaluate cer w0)) as (H1 & H2).
  cbn zeta in H1, H2. rewrite H1, H2, He, Hl.
  assert (Ha0 : all_stats w0 = []) by (subst w0; destruct w; exact Ha).
  rewrite Ha0. cbn [length]. split; lia.
Qed.

End Engine.

(** *** The driver on the sample runs *)

Section DriverRuns.
Import Py LRSchedule Train Samples.

Lemma C2_start_without_checkpoint_witness :
  let w' := trainer_load_checkpoint evaluate0 partitions (fresh clock_301 0) in
  epoch (engine w') = 0 /\ iteration (engine w') = 0 /\
  ((TIME_BUFFER < clock_301 1 - clock_301 0)%Q ->
   exists ck, store w' = Some ck /\ ck_epoch ck = 0 /\ ck_iteration ck = 0 /\
              ck_all_stats ck = all_stats w') /\
  ((clock_301 1 - clock_301 0 <= TIME_BUFFER)%Q -> store w' = None) /\
  (exists entry,
     all_stats w' = [] ++ [entry] /\
     stats_epoch entry = 0 /\
     map fst (stats_parts entry)
     = List.filter (fun name => bool_decide (name ∈ partitions))
                   ["train"; "valid"; "test"]%string /\
     Forall (reported evaluate0 tt) (stats_parts entry)).
Proof.
  apply (C2_start_without_checkpoint evaluate0 partitions (fresh clock_301 0)).
  reflexivity.
Defined.

(** C2, as the spec states it, fails: with an empty store and a clock that
    does not move between the two readings, the start handler returns with
    the store still empty. *)
Lemma C2_counterexample :
  ~ (forall w : @world unit,
       store w = None ->
       let w' := trainer_load_checkpoint evaluate0 partitions w in
       epoch (engine w') = 0 /\ iteration (engine w') = 0 /\
       exists ck, store w' = Some ck).
Proof.
  intros H. destruct (H (fresh clock_still 0) eq_refl) as (_ & _ & ck & Hck).
  vm_compute in Hck. discriminate Hck.
Qed.

(** C5, as the spec states it, fails: two runs with the same sampler seed,
    at the same epoch, whose generators are in different states when the
    epoch starts, are in different states after the handler. *)
Lemma C5_counterexample :
  ~ (forall (sd : seeds) (w1 w2 : @world unit),
       epoch (engine w1) = epoch (engine w2) ->
       rng (trainer_seeding true sd w1) = rng (trainer_seeding true sd w2)).
Proof.
  intros H.
  specialize (H (mkSeeds 1 1) (fresh clock_still 0) (fresh clock_still 1) eq_refl).
  vm_compute in H. discriminate H.
Qed.

Lemma C4_train_raises_name_error_witness :
  train evaluate0 run_once0 10 true config1 3 partitions (fresh clock_301 0)
  = (run evaluate0 run_once0 10 true (mkSeeds 1 1) partitions 3
         (set_all_stats [] (set_lr_scheduler None (set_cudnn true false
            (set_cudnn true false (fresh clock_301 0))))),
     Raise (NameError "clear_checkpoint")).
Proof.
  apply (C4_train_raises_name_error evaluate0 run_once0 10 true config1 3 partitions
           (fresh clock_301 0)).
  reflexivity.
Defined.

(** On that run the engine has checkpointed every epoch, and the
    checkpoint is still in the store when [train] raises. *)
Example train_leaves_checkpoint :
  let '(w, r) := train evaluate0 run_once0 10 true config1 3 partitions (fresh clock_301 0) in
  r = Raise (NameError "clear_checkpoint") /\
  epoch (engine w) = 3 /\
  option_map ck_epoch (store w) = Some 3 /\
  length (all_stats w) = 4%nat.
Proof. vm_compute. repeat split. Qed.

End DriverRuns.

(** ** The batch submission script *)

Section Submission.
Import Py Save.

Lemma format_orion_ok (dataset model version : string) :
  exists s, format orion_template (tags dataset model version) = Ok s.
Proof. vm_compute. eexists. reflexivity. Qed.

Lemma format_kleio_ok (dataset model version : string) :
  exists s, format kleio_template (tags dataset model version) = Ok s.
Proof. vm_compute. eexists. reflexivity. Qed.

Lemma format_script_ok (file_path : string) :
  exists s, format script_template (<["file_path"%string := file_path]> ∅) = Ok s.
Proof. vm_compute. eexists. reflexivity. Qed.

(** The last [format] has no value for the field [orion]. *)
Lemma format_commandline_key_error (kleio script : string) :
  format commandline_template (<["kleio"%string := kleio]> (<["script"%string := script]> ∅))
  = Raise (KeyError "orion").
Proof. vm_compute. reflexivity. Qed.

Lemma data_wrapper_level_unbound :
  lookup_name module_names "data_wrapper_level" = Raise (NameError "data_wrapper_level").
Proof. vm_compute. reflexivity. Qed.

(** Whatever the module binds, no command line is formed. *)
Lemma commandline_of_raises (globals : list string) (version : string)
    (instance : string * string * string) :
  commandline_of globals version instance
  = match lookup_name globals "data_wrapper_level" with
    | Ok _ => Raise (KeyError "orion")
    | Raise e => Raise e
    end.
Proof.
  destruct instance as [[dataset model] file_path]. unfold commandline_of.
  destruct (format_orion_ok dataset model version) as [orion ->].
  destruct (format_kleio_ok dataset model version) as [kleio ->].
  cbn [bind]. destruct (lookup_name globals "data_wrapper_level") as [[]|e]; [|reflexivity].
  cbn [bind]. destruct (format_script_ok file_path) as [script ->].
  cbn [bind]. apply format_commandline_key_error.
Qed.

(** C6, as the code has it.  As soon as one configuration is selected,
    [main] raises [NameError] on [data_wrapper_level] while it prepares the
    first command line: nothing is printed and nothing is spawned, with or
    without [--print-only]; and were the name bound, the last [format]
    would raise [KeyError] on [orion]. *)
Theorem C6_main_raises (fs : tree) (a : args) (w : world) :
  get_instances fs (configs a) (datasets a) (models a) "0.benchmark" <> [] ->
  main fs a w = (w, Raise (NameError "data_wrapper_level")) /\
  forall globals, is_ok (snd (main_with globals fs a w)) = false.
Proof.
  intros Hne. unfold main, main_with.
  destruct (get_instances fs (configs a) (datasets a) (models a) "0.benchmark")
    as [|instance rest]; [congruence|].
  cbn [collect]. split.
  - rewrite commandline_of_raises, data_wrapper_level_unbound. reflexivity.
  - intros globals. rewrite commandline_of_raises.
    destruct (lookup_name globals "data_wrapper_level"); reflexivity.
Qed.

Lemma C6_main_raises_witness :
  main Samples.one_config Samples.print_only_args (mkWorld [] [])
  = (mkWorld [] [], Raise (NameError "data_wrapper_level")) /\
  forall globals,
    is_ok (snd (main_with globals Samples.one_config Samples.print_only_args (mkWorld [] [])))
    = false.
Proof.
  apply (C6_main_raises Samples.one_config Samples.print_only_args (mkWorld [] [])).
  vm_compute. discriminate.
Defined.

(** The configuration of the sample tree is selected, and the command line
    that the templates describe for it is the following. *)
Example selected_instance :
  get_instances Samples.one_config "configs" None None "0.benchmark"
  = [("mnist", "lenet", "configs/0.benchmark/mnist/lenet.yaml")]%string.
Proof. vm_compute. reflexivity. Qed.

Example expected_for_lenet :
  expected_commandline "v1" ("mnist", "lenet", "configs/0.benchmark/mnist/lenet.yaml")%string
  = Ok ("orion hunt -n benchmark;mnist;lenet;v1 --config /configs/orion.core/orion_config.yaml "
        ++ "kleio run --allow-host-changes --config /config/kleio.core/kleio_config.yaml "
        ++ "--tags benchmark;mnist;lenet;v1 "
        ++ "python3.6 /repos/sgd-space/src/sgdad/train.py "
        ++ "--config=configs/0.benchmark/mnist/lenet.yaml "
        ++ "--model-seed 1 --sampler-seed 1 --epochs 300")%string.
Proof. vm_compute. reflexivity. Qed.

End Submission.

(** * Further properties *)

(** ** The schedule in general *)

Section ScheduleLaws.
Import Py LRSchedule.

Lemma count_le_mono (a : list Z) (x y : Z) :
  x <= y -> (count_le a x <= count_le a y)%nat.
Proof.
  intros Hxy. unfold count_le. induction a as [|m a IH]; [reflexivity|].
  cbn [List.filter].
  destruct (m <=? x) eqn:E1, (m <=? y) eqn:E2; cbn [length]; lia.
Qed.

Lemma Qpower_succ (g : Q) (k : nat) :
  (g ^ Z.of_nat (S k) == g * g ^ Z.of_nat k)%Q.
Proof.
  rewrite Nat2Z.inj_succ, <- Z.add_1_l.
  rewrite Qpower_plus' by lia. reflexivity.
Qed.

(** A factor between 0 and 1 shrinks with each further step. *)
Lemma Qpower_antitone (g : Q) (n m : nat) :
  (0 <= g)%Q -> (g <= 1)%Q -> (n <= m)%nat ->
  (g ^ Z.of_nat m <= g ^ Z.of_nat n)%Q.
Proof.
  intros H0 H1 Hnm. induction Hnm as [|m Hnm IH]; [apply Qle_refl|].
  eapply Qle_trans; [|exact IH].
  rewrite Qpower_succ.
  rewrite <- (Qmult_1_l (g ^ Z.of_nat m)) at 2.
  apply Qmult_le_compat_r; [exact H1 | apply Qpower_0_le; exact H0].
Qed.

(** X1.  Outside the divided first epoch, the rate of every parameter group
    at epoch [e] is its base rate times [gamma] to the number of milestones
    that are [<= e]. *)
Theorem get_lr_closed_form (s : MultiStepLR) (e : Z) :
  is_sorted (milestones s) = true ->
  (1 <= e \/ truthy (div_first_epoch s) = false) ->
  get_lr (at_epoch s e)
  = map (fun base_lr => (base_lr * gamma s ^ Z.of_nat (count_le (milestones s) e))%Q)
        (base_lrs s).
Proof.
  intros Hs He. unfold get_lr, at_epoch.
  cbn [last_epoch div_first_epoch milestones gamma base_lrs].
  replace ((e <? 1) && truthy (div_first_epoch s)) with false.
  - rewrite bisect_right_count by exact Hs. reflexivity.
  - symmetry. destruct He as [He | ->]; [|apply andb_false_r].
    replace (e <? 1) with false by (symmetry; apply Z.ltb_ge; lia). reflexivity.
Qed.

Lemma get_lr_closed_form_witness :
  get_lr (at_epoch (mkMultiStepLR [30; 60; 90] (1 # 2) (-1) [1%Q; 4%Q] 1) 75)
  = map (fun base_lr => (base_lr * (1 # 2) ^ Z.of_nat (count_le [30%Z; 60%Z; 90%Z] 75))%Q)
        [1%Q; 4%Q].
Proof.
  apply (get_lr_closed_form (mkMultiStepLR [30; 60; 90] (1 # 2) (-1) [1%Q; 4%Q] 1) 75).
  - reflexivity.
  - left. lia.
Defined.

(** X2.  Before the first milestone (and outside the divided first epoch)
    every group has its base rate, and from the last milestone on it has its
    base rate times [gamma] to the number of milestones. *)
Theorem get_lr_ends (s : MultiStepLR) (e : Z) :
  is_sorted (milestones s) = true ->
  (1 <= e \/ truthy (div_first_epoch s) = false) ->
  ((forall m, In m (milestones s) -> e < m) ->
   Forall2 Qeq (get_lr (at_epoch s e)) (base_lrs s)) /\
  ((forall m, In m (milestones s) -> m <= e) ->
   get_lr (at_epoch s e)
   = map (fun base_lr => (base_lr * gamma s ^ Z.of_nat (length (milestones s)))%Q)
         (base_lrs s)).
Proof.
  intros Hs He. rewrite (get_lr_closed_form s e Hs He). split; intros Hm.
  - assert (Hc : count_le (milestones s) e = 0%nat).
    { unfold count_le. clear Hs. induction (milestones s) as [|m a IH]; [reflexivity|].
      cbn [List.filter]. replace (m <=? e) with false.
      - apply IH. intros m' Hm'. apply Hm. right. exact Hm'.
      - symmetry. apply Z.leb_gt. apply Hm. left. reflexivity. }
    rewrite Hc. induction (base_lrs s) as [|b l IH]; constructor; [|exact IH].
    cbn. apply Qmult_1_r.
  - assert (Hc : count_le (milestones s) e = length (milestones s)).
    { unfold count_le. clear Hs. induction (milestones s) as [|m a IH]; [reflexivity|].
      cbn [List.filter]. replace (m <=? e) with true.
      - cbn [length]. f_equal. apply IH. intros m' Hm'. apply Hm. right. exact Hm'.
      - symmetry. apply Z.leb_le. apply Hm. left. reflexivity. }
    rewrite Hc. reflexivity.
Qed.

Lemma get_lr_ends_witness :
  ((forall m, In m [30; 60; 90] -> 10 < m) ->
   Forall2 Qeq (get_lr (at_epoch (mkMultiStepLR [30; 60; 90] (1 # 2) (-1) [1%Q; 4%Q] 0) 10))
           [1%Q; 4%Q]) /\
  ((forall m, In m [30; 60; 90] -> m <= 10) ->
   get_lr (at_epoch (mkMultiStepLR [30; 60; 90] (1 # 2) (-1) [1%Q; 4%Q] 0) 10)
   = map (fun base_lr => (base_lr * (1 # 2) ^ Z.of_nat 3)%Q) [1%Q; 4%Q]).
Proof.
  apply (get_lr_ends (mkMultiStepLR [30; 60; 90] (1 # 2) (-1) [1%Q; 4%Q] 0) 10).
  - reflexivity.
  - right. reflexivity.
Defined.

(** X3.  With [0 <= gamma <= 1] and non-negative base rates, the schedule
    never raises a rate from one epoch to a later one, once the divided
    first epoch is over. *)
Theorem get_lr_non_increasing (s : MultiStepLR) (e e' : Z) :
  is_sorted (milestones s) = true ->
  (0 <= gamma s)%Q -> (gamma s <= 1)%Q ->
  Forall (fun b => 0 <= b)%Q (base_lrs s) ->
  (1 <= e \/ truthy (div_first_epoch s) = false) ->
  e <= e' ->
  Forall2 Qle (get_lr (at_epoch s e')) (get_lr (at_epoch s e)).
Proof.
  intros Hs H0 H1 Hb He Hee.
  rewrite (get_lr_closed_form s e Hs He).
  rewrite (get_lr_closed_form s e' Hs) by (destruct He; [left; lia | right; assumption]).
  pose proof (count_le_mono (milestones s) e e' Hee) as Hc.
  induction Hb as [|b l Hb0 Hb IH]; constructor; [|exact IH].
  rewrite !(Qmult_comm b). apply Qmult_le_compat_r; [|exact Hb0].
  apply Qpower_antitone; assumption.
Qed.

Lemma get_lr_non_increasing_witness :
  Forall2 Qle (get_lr (at_epoch (mkMultiStepLR [60; 120] (1 # 10) (-1) [1%Q] 1) 200))
          (get_lr (at_epoch (mkMultiStepLR [60; 120] (1 # 10) (-1) [1%Q] 1) 1)).
Proof.
  apply (get_lr_non_increasing (mkMultiStepLR [60; 120] (1 # 10) (-1) [1%Q] 1) 1 200).
  - reflexivity.
  - discriminate.
  - discriminate.
  - constructor; [discriminate | constructor].
  - left. lia.
  - lia.
Defined.

End ScheduleLaws.

(** ** The construction of the experiment *)

Section ExperimentLaws.
Import Py LRSchedule Train.

(** X5.  The scheduler branch of [build_experiment] on its edge inputs: no
    configuration or an empty mapping gives no scheduler; a mapping without
    the key [milestones] raises [KeyError]; an empty list of milestones
    raises [IndexError]; and remaining milestones that are not in order are
    refused by the constructor with [ValueError]. *)
Theorem build_lr_scheduler_edges (base : list Q) :
  build_lr_scheduler None base = Ok None /\
  build_lr_scheduler (Some ∅) base = Ok None /\
  (forall d : gmap string (list Z),
     d <> ∅ -> d !! "milestones"%string = None ->
     build_lr_scheduler (Some d) base = Raise (KeyError "milestones")) /\
  (forall d : gmap string (list Z),
     d !! "milestones"%string = Some [] ->
     build_lr_scheduler (Some d) base = Raise IndexError) /\
  (forall (d : gmap string (list Z)) flag ms,
     d !! "milestones"%string = Some (flag :: ms) -> is_sorted ms = false ->
     build_lr_scheduler (Some d) base
     = Raise (ValueError "Milestones should be a list of increasing integers")).
Proof.
  assert (Hne : forall (d : gmap string (list Z)) l,
             d !! "milestones"%string = Some l -> bool_decide (d = ∅) = false).
  { intros d l Hd. apply bool_decide_eq_false_2. intros ->.
    rewrite lookup_empty in Hd. discriminate. }
  split; [reflexivity|]. split; [reflexivity|]. split; [|split].
  - intros d Hd Hm. unfold build_lr_scheduler.
    rewrite bool_decide_eq_false_2 by exact Hd. rewrite Hm. reflexivity.
  - intros d Hm. unfold build_lr_scheduler. rewrite (Hne d [] Hm), Hm. reflexivity.
  - intros d flag ms Hm Hs. unfold build_lr_scheduler.
    rewrite (Hne d _ Hm), Hm.
    unfold MultiStepLR_init, torch_MultiStepLR_init. rewrite Hs. reflexivity.
Qed.

Lemma build_lr_scheduler_edges_witness :
  build_lr_scheduler (Some {[ "gamma"%string := [1] ]}) [1%Q] = Raise (KeyError "milestones") /\
  build_lr_scheduler (Some {[ "milestones"%string := [] ]}) [1%Q] = Raise IndexError /\
  build_lr_scheduler (Some {[ "milestones"%string := [0; 120; 60] ]}) [1%Q]
  = Raise (ValueError "Milestones should be a list of increasing integers").
Proof.
  destruct (build_lr_scheduler_edges [1%Q]) as (_ & _ & Hk & Hi & Hv).
  split; [|split].
  - apply Hk; [|vm_compute; reflexivity].
    intros H. apply (f_equal (fun m : gmap string (list Z) => m !! "gamma"%string)) in H.
    vm_compute in H. discriminate H.
  - apply Hi. vm_compute. reflexivity.
  - apply (Hv _ 0 [120; 60]); vm_compute; reflexivity.
Defined.

Context {Net : Type}.
Variable evaluate : Net -> string -> Z -> (Q * Q) * Z.
Variable run_once : Net -> list Q -> Z -> Net * Q * Z.
Variable batches : Z.

(** X6.  [train] fails before any work when a seed is missing or there is no
    GPU: the model seed is checked first, then the sampler seed, then the
    device; the error leaves [train] with the world exactly as it was. *)
Theorem train_fails_fast (cuda_available : bool) (cfg : config) (max_epochs : Z)
    (cer : list string) (w : @world Net) :
  (model_seed cfg = None ->
   train evaluate run_once batches cuda_available cfg max_epochs cer w
   = (w, Raise (ValueError "model_seed must be defined"))) /\
  (model_seed cfg <> None -> sampler_seed cfg = None ->
   train evaluate run_once batches cuda_available cfg max_epochs cer w
   = (w, Raise (ValueError "sampler_seed must be defined"))) /\
  (model_seed cfg <> None -> sampler_seed cfg <> None -> cuda_available = false ->
   train evaluate run_once batches cuda_available cfg max_epochs cer w
   = (w, Raise (RuntimeError "GPU not available"))).
Proof.
  unfold train, bind_io, build_experiment.
  destruct (model_seed cfg) as [ms|], (sampler_seed cfg) as [ss|];
    repeat split; intros; subst; try congruence; reflexivity.
Qed.

End ExperimentLaws.

Lemma train_fails_fast_witness :
  Train.train Samples.evaluate0 Samples.run_once0 10 false Samples.config1 3 Samples.partitions
        (Samples.fresh Samples.clock_301 0)
  = (Samples.fresh Samples.clock_301 0, Py.Raise (Py.RuntimeError "GPU not available")).
Proof.
  apply (train_fails_fast Samples.evaluate0 Samples.run_once0 10 false Samples.config1 3
           Samples.partitions (Samples.fresh Samples.clock_301 0));
    [discriminate | discriminate | reflexivity].
Defined.

(** ** The handlers and the loop *)

Section DriverLaws.
Import Py LRSchedule Train.

Context {Net : Type}.
Variable evaluate : Net -> string -> Z -> (Q * Q) * Z.
Variable run_once : Net -> list Q -> Z -> Net * Q * Z.
Variable batches : Z.
Variable cuda_available : bool.

(** The handler of [EPOCH_COMPLETED] in one statement: the entry it records
    and the fields it leaves alone. *)
Lemma trainer_save_checkpoint_shape (cer : list string) (w : @world Net) :
  let w' := trainer_save_checkpoint evaluate cer w in
  exists parts,
    map fst parts = List.filter (fun name => bool_decide (name ∈ cer))
                                ["train"; "valid"; "test"]%string /\
    Forall (reported evaluate (net w)) parts /\
    all_stats w' = all_stats w ++ [mkEpochStats (epoch (engine w)) parts] /\
    epoch (engine w') = epoch (engine w) /\
    iteration (engine w') = iteration (engine w) /\
    lr_scheduler w' = lr_scheduler w /\ opt_lrs w' = opt_lrs w /\
    net w' = net w /\ clock w' = clock w /\ training w' = false.
Proof.
  cbn zeta. unfold trainer_save_checkpoint.
  match goal with
  | |- context [evaluate_partitions evaluate ?ns cer ?w0] =>
      pose proof (evaluate_partitions_frame evaluate ns cer w0) as Hf;
      destruct (evaluate_partitions_parts evaluate ns cer w0) as [Hn Hr];
      destruct (evaluate_partitions evaluate ns cer w0) as [parts w1]
  end.
  cbn [fst snd] in Hf, Hn, Hr. rewrite Hf. unfold utcnow.
  cbn [set_rng set_training set_engine set_all_stats set_tick engine clock tick
       last_checkpoint epoch iteration all_stats store].
  exists parts. split; [exact Hn|]. split; [exact Hr|].
  destruct (Qlt_le_dec _ _); cbn; repeat split; reflexivity.
Qed.

(** X7.  The handler of [EPOCH_COMPLETED] adds exactly one entry to the
    history: it carries the current epoch, its partitions are those of
    train, valid, test (in this order) that are named in
    [compute_error_rates], and the error rate of each is one minus the
    accuracy that the evaluator reports for it on the current network. *)
Theorem epoch_completed_entry (cer : list string) (w : @world Net) :
  exists entry,
    all_stats (trainer_save_checkpoint evaluate cer w) = all_stats w ++ [entry] /\
    stats_epoch entry = epoch (engine w) /\
    map fst (stats_parts entry)
    = List.filter (fun name => bool_decide (name ∈ cer)) ["train"; "valid"; "test"]%string /\
    Forall (reported evaluate (net w)) (stats_parts entry).
Proof.
  destruct (trainer_save_checkpoint_shape cer w) as (parts & Hn & Hr & Ha & _).
  exists (mkEpochStats (epoch (engine w)) parts). repeat split; assumption.
Qed.

(** X8.  The time gate of the handler of [EPOCH_COMPLETED]: with [now] the
    clock reading it takes after the evaluation, a checkpoint with the
    current counters and the history including the new entry is persisted,
    and [last_checkpoint] moves to the next reading, exactly when
    [now - last_checkpoint] is more than [TIME_BUFFER]; at [TIME_BUFFER] or
    less, the store and [last_checkpoint] are left as they were. *)
Theorem epoch_completed_gate (cer : list string) (w : @world Net) :
  let w' := trainer_save_checkpoint evaluate cer w in
  let elapsed := (clock w (tick w) - last_checkpoint (engine w))%Q in
  ((elapsed <= TIME_BUFFER)%Q ->
   store w' = store w /\
   last_checkpoint (engine w') = last_checkpoint (engine w) /\
   tick w' = S (tick w)) /\
  ((TIME_BUFFER < elapsed)%Q ->
   (exists ck, store w' = Some ck /\
               ck_epoch ck = epoch (engine w) /\
               ck_iteration ck = iteration (engine w) /\
               ck_all_stats ck = all_stats w') /\
   last_checkpoint (engine w') = clock w (S (tick w)) /\
   tick w' = S (S (tick w))).
Proof.
  cbn zeta. unfold trainer_save_checkpoint.
  match goal with
  | |- context [evaluate_partitions evaluate ?ns cer ?w0] =>
      pose proof (evaluate_partitions_frame evaluate ns cer w0) as Hf;
      destruct (evaluate_partitions evaluate ns cer w0) as [parts w1]
  end.
  cbn [snd] in Hf. rewrite Hf. unfold utcnow.
  cbn [set_rng set_training set_engine set_all_stats set_tick engine clock tick
       last_checkpoint epoch iteration all_stats store].
  destruct (Qlt_le_dec TIME_BUFFER (clock w (tick w) - last_checkpoint (engine w)))
    as [Hlt|Hle]; cbn; split.
  - intros Hle. exfalso. exact (Qlt_not_le _ _ Hlt Hle).
  - intros _. split; [|split; reflexivity].
    eexists. repeat split; reflexivity.
  - intros _. repeat split; reflexivity.
  - intros Hlt. exfalso. exact (Qlt_not_le _ _ Hlt Hle).
Qed.

(** One turn of the loop, in one statement. *)
Lemma run_epoch_shape (sd : seeds) (cer : list string) (w : @world Net) :
  let w' := run_epoch evaluate run_once batches cuda_available sd cer w in
  epoch (engine w') = epoch (engine w) + 1 /\
  iteration (engine w') = iteration (engine w) + batches /\
  map stats_epoch (all_stats w') = map stats_epoch (all_stats w) ++ [epoch (engine w) + 1] /\
  lr_scheduler w' = option_map (fun s => at_epoch s (last_epoch s + 1)) (lr_scheduler w) /\
  opt_lrs w' = match lr_scheduler w with
               | Some s => get_lr (at_epoch s (last_epoch s + 1))
               | None => opt_lrs w
               end.
Proof.
  cbn zeta. unfold run_epoch.
  set (w0 := set_engine _ w).
  assert (Hs : trainer_seeding cuda_available sd w0
               = set_training true (seed cuda_available (seeds_sampler sd + epoch (engine w0))
                   match lr_scheduler w0 with
                   | Some s => set_opt_lrs (get_lr (at_epoch s (last_epoch s + 1)))
                                 (set_lr_scheduler (Some (at_epoch s (last_epoch s + 1))) w0)
                   | None => w0
                   end)).
  { unfold trainer_seeding. destruct (lr_scheduler w0); reflexivity. }
  rewrite Hs. clear Hs.
  set (w1 := set_training true _).
  assert (H1 : engine w1 = engine w0 /\ all_stats w1 = all_stats w0 /\
               lr_scheduler w1 = option_map (fun s => at_epoch s (last_epoch s + 1)) (lr_scheduler w0) /\
               opt_lrs w1 = match lr_scheduler w0 with
                            | Some s => get_lr (at_epoch s (last_epoch s + 1))
                            | None => opt_lrs w0
                            end).
  { subst w1. unfold seed.
    destruct (lr_scheduler w0) as [s|] eqn:E, cuda_available;
      cbn [set_training set_cudnn set_opt_lrs set_lr_scheduler engine all_stats
           lr_scheduler opt_lrs option_map];
      rewrite ?E; repeat split; reflexivity. }
  destruct H1 as (He & Ha & Hl & Ho).
  destruct (run_once (net w1) (opt_lrs w1) (rng w1)) as [[n out] g].
  match goal with
  | |- context [trainer_save_checkpoint evaluate cer ?w2] =>
      destruct (trainer_save_checkpoint_shape cer w2)
        as (parts & _ & _ & S1 & S2 & S3 & S4 & S5 & _)
  end.
  rewrite S1, S2, S3, S4, S5.
  cbn [set_engine set_rng set_net engine epoch iteration all_stats lr_scheduler opt_lrs].
  rewrite He, Ha, Hl, Ho. subst w0.
  cbn [set_engine engine epoch iteration all_stats lr_scheduler opt_lrs].
  rewrite map_app. repeat split; reflexivity.
Qed.

Lemma at_epoch_at_epoch (s : MultiStepLR) (a b : Z) :
  at_epoch (at_epoch s a) b = at_epoch s b.
Proof. reflexivity. Qed.

Lemma iter_run_epoch_shape (sd : seeds) (cer : list string) (k : nat) (w : @world Net) :
  let w' := Nat.iter k (run_epoch evaluate run_once batches cuda_available sd cer) w in
  epoch (engine w') = epoch (engine w) + Z.of_nat k /\
  iteration (engine w') = iteration (engine w) + Z.of_nat k * batches /\
  map stats_epoch (all_stats w')
  = map stats_epoch (all_stats w)
    ++ map (fun i => epoch (engine w) + Z.of_nat i) (seq 1 k) /\
  lr_scheduler w'
  = option_map (fun s => at_epoch s (last_epoch s + Z.of_nat k)) (lr_scheduler w).
Proof.
  cbn zeta. induction k as [|k (IH1 & IH2 & IH3 & IH4)].
  - cbn [Nat.iter nat_rect seq map]. rewrite app_nil_r, Z.add_0_r.
    split; [reflexivity|]. split; [lia|]. split; [reflexivity|].
    destruct (lr_scheduler w) as [s|]; [|reflexivity].
    cbn [option_map]. rewrite Z.add_0_r. destruct s; reflexivity.
  - rewrite Nat.iter_succ.
    destruct (run_epoch_shape sd cer
                (Nat.iter k (run_epoch evaluate run_once batches cuda_available sd cer) w))
      as (H1 & H2 & H3 & H4 & _).
    cbn zeta in H1, H2, H3, H4. rewrite H1, H2, H3, H4, IH1, IH2, IH3, IH4.
    split; [lia|]. split; [lia|]. split.
    + rewrite seq_S, map_app, <- app_assoc. cbn [map app].
      do 3 f_equal. lia.
    + destruct (lr_scheduler w) as [s|]; [|reflexivity].
      cbn [option_map]. f_equal. unfold at_epoch. cbn [last_epoch milestones gamma base_lrs div_first_epoch].
      f_equal. lia.
Qed.

(** The start handler on an empty store, in one statement. *)
Lemma start_without_checkpoint_shape (cer : list string) (w : @world Net) :
  store w = None ->
  let w' := trainer_load_checkpoint evaluate cer w in
  epoch (engine w') = 0 /\ iteration (engine w') = 0 /\
  map stats_epoch (all_stats w') = map stats_epoch (all_stats w) ++ [0] /\
  lr_scheduler w' = lr_scheduler w.
Proof.
  intros Hs. cbn zeta. unfold trainer_load_checkpoint, utcnow, load_checkpoint.
  cbn [store set_tick set_engine engine]. rewrite Hs.
  match goal with
  | |- context [trainer_save_checkpoint evaluate cer ?w2] =>
      destruct (trainer_save_checkpoint_shape cer w2)
        as (parts & _ & _ & S1 & S2 & S3 & S4 & _)
  end.
  rewrite S1, S2, S3, S4. rewrite map_app. repeat split; reflexivity.
Qed.

(** X9.  Started on an empty store with an empty history, the engine runs
    epochs 1 to [max_epochs]: it stops with the epoch counter at
    [max_epochs] and the iteration counter at [max_epochs * batches], and
    the history holds one entry for each of the epochs 0, 1, ...,
    [max_epochs], in this order. *)
Theorem run_history (sd : seeds) (cer : list string) (max_epochs : Z) (w : @world Net) :
  store w = None -> all_stats w = [] -> 0 <= max_epochs ->
  let w' := run evaluate run_once batches cuda_available sd cer max_epochs w in
  epoch (engine w') = max_epochs /\
  iteration (engine w') = max_epochs * batches /\
  map stats_epoch (all_stats w') = map Z.of_nat (seq 0 (S (Z.to_nat max_epochs))).
Proof.
  intros Hs Ha Hm. cbn zeta. unfold run.
  set (w0 := set_engine _ w).
  assert (Hs0 : store w0 = None) by (subst w0; destruct w; exact Hs).
  assert (Ha0 : all_stats w0 = []) by (subst w0; destruct w; exact Ha).
  destruct (start_without_checkpoint_shape cer w0 Hs0) as (He & Hi & Hh & _).
  cbn zeta in He, Hi, Hh.
  destruct (iter_run_epoch_shape sd cer
              (Z.to_nat (max_epochs - epoch (engine (trainer_load_checkpoint evaluate cer w0))))
              (trainer_load_checkpoint evaluate cer w0)) as (H1 & H2 & H3 & _).
  cbn zeta in H1, H2, H3. rewrite H1, H2, H3, He, Hi, Hh, Ha0, Z.sub_0_r.
  split; [lia|]. split; [rewrite Z2Nat.id by lia; lia|].
  reflexivity.
Qed.

(** X10.  Started on an empty store, the engine advances the scheduler once
    per epoch: after the run its [last_epoch] is [max_epochs] more than it
    was, so a scheduler constructed with [last_epoch = -1] is at
    [max_epochs - 1] when epoch [max_epochs] is trained. *)
Theorem run_steps_scheduler (sd : seeds) (cer : list string) (max_epochs : Z)
    (w : @world Net) (s : MultiStepLR) :
  store w = None -> lr_scheduler w = Some s -> 0 <= max_epochs ->
  lr_scheduler (run evaluate run_once batches cuda_available sd cer max_epochs w)
  = Some (at_epoch s (last_epoch s + max_epochs)).
Proof.
  intros Hs Hl Hm. unfold run.
  set (w0 := set_engine _ w).
  assert (Hs0 : store w0 = None) by (subst w0; destruct w; exact Hs).
  assert (Hl0 : lr_scheduler w0 = Some s) by (subst w0; destruct w; exact Hl).
  destruct (start_without_checkpoint_shape cer w0 Hs0) as (He & _ & _ & Hk).
  cbn zeta in He, Hk.
  destruct (iter_run_epoch_shape sd cer
              (Z.to_nat (max_epochs - epoch (engine (trainer_load_checkpoint evaluate cer w0))))
              (trainer_load_checkpoint evaluate cer w0)) as (_ & _ & _ & H4).
  cbn zeta in H4. rewrite H4, Hk, Hl0, He. cbn [option_map]. do 3 f_equal. lia.
Qed.

(** X11.  Started on a store that holds a checkpoint taken at epoch [k],
    the engine does not evaluate epoch 0 again: it takes the counters and
    the history of the checkpoint and runs the epochs [k + 1] to
    [max_epochs] only (none when [k >= max_epochs]). *)
Theorem run_resumes (sd : seeds) (cer : list string) (max_epochs : Z)
    (w : @world Net) (ck : checkpoint) :
  store w = Some ck -> all_stats w = [] ->
  let w' := run evaluate run_once batches cuda_available sd cer max_epochs w in
  epoch (engine w') = Z.max (ck_epoch ck) max_epochs /\
  iteration (engine w')
  = ck_iteration ck + Z.max 0 (max_epochs - ck_epoch ck) * batches /\
  map stats_epoch (all_stats w')
  = map stats_epoch (ck_all_stats ck)
    ++ map (fun i => ck_epoch ck + Z.of_nat i) (seq 1 (Z.to_nat (max_epochs - ck_epoch ck))).
Proof.
  intros Hs Ha. cbn zeta. unfold run.
  set (w0 := set_engine _ w).
  assert (Hs0 : store w0 = Some ck) by (subst w0; destruct w; exact Hs).
  assert (Ha0 : all_stats w0 = []) by (subst w0; destruct w; exact Ha).
  assert (Hload : epoch (engine (trainer_load_checkpoint evaluate cer w0)) = ck_epoch ck /\
                  iteration (engine (trainer_load_checkpoint evaluate cer w0)) = ck_iteration ck /\
                  all_stats (trainer_load_checkpoint evaluate cer w0) = ck_all_stats ck).
  { unfold trainer_load_checkpoint, utcnow, load_checkpoint.
    cbn [store set_tick set_engine engine]. rewrite Hs0.
    cbn. rewrite ?Ha0, ?Ha. repeat split; reflexivity. }
  destruct Hload as (He & Hi & Hh).
  destruct (iter_run_epoch_shape sd cer
              (Z.to_nat (max_epochs - epoch (engine (trainer_load_checkpoint evaluate cer w0))))
              (trainer_load_checkpoint evaluate cer w0)) as (H1 & H2 & H3 & _).
  cbn zeta in H1, H2, H3. rewrite H1, H2, H3, He, Hi, Hh.
  split; [lia|]. split; [|reflexivity].
  replace (Z.of_nat (Z.to_nat (max_epochs - ck_epoch ck)))
    with (Z.max 0 (max_epochs - ck_epoch ck)) by lia.
  reflexivity.
Qed.

End DriverLaws.

Section DriverLawsRuns.
Import Py LRSchedule Train Samples.

Lemma epoch_completed_gate_witness :
  let w' := trainer_save_checkpoint evaluate0 partitions (fresh clock_301 0) in
  let elapsed := (clock_301 0 - 0)%Q in
  ((elapsed <= TIME_BUFFER)%Q ->
   store w' = None /\
   last_checkpoint (engine w') = 0%Q /\
   tick w' = 1%nat) /\
  ((TIME_BUFFER < elapsed)%Q ->
   (exists ck, store w' = Some ck /\
               ck_epoch ck = 0 /\
               ck_iteration ck = 0 /\
               ck_all_stats ck = all_stats w') /\
   last_checkpoint (engine w') = clock_301 1 /\
   tick w' = 2%nat).
Proof. exact (epoch_completed_gate evaluate0 partitions (fresh clock_301 0)). Defined.

Lemma run_history_witness :
  let w' := run evaluate0 run_once0 10 true (mkSeeds 1 1) partitions 3 (fresh clock_301 0) in
  epoch (engine w') = 3 /\
  iteration (engine w') = 3 * 10 /\
  map stats_epoch (all_stats w') = map Z.of_nat (seq 0 (S (Z.to_nat 3))).
Proof.
  apply (run_history evaluate0 run_once0 10 true (mkSeeds 1 1) partitions 3
           (fresh clock_301 0)); [reflexivity | reflexivity | lia].
Defined.

Lemma run_steps_scheduler_witness :
  lr_scheduler (run evaluate0 run_once0 10 true (mkSeeds 1 1) partitions 3 scheduled)
  = Some (at_epoch (mkMultiStepLR [60; 120] (1 # 10) (-1) [1%Q] 0) (-1 + 3)).
Proof.
  apply (run_steps_scheduler evaluate0 run_once0 10 true (mkSeeds 1 1) partitions 3 scheduled);
    [reflexivity | reflexivity | lia].
Defined.

Lemma run_resumes_witness :
  let w' := run evaluate0 run_once0 10 true (mkSeeds 1 1) partitions 5 interrupted in
  epoch (engine w') = Z.max 2 5 /\
  iteration (engine w') = 20 + Z.max 0 (5 - 2) * 10 /\
  map stats_epoch (all_stats w')
  = map stats_epoch [mkEpochStats 0 []; mkEpochStats 1 []; mkEpochStats 2 []]
    ++ map (fun i => 2 + Z.of_nat i) (seq 1 (Z.to_nat (5 - 2))).
Proof.
  apply (run_resumes evaluate0 run_once0 10 true (mkSeeds 1 1) partitions 5 interrupted
           (mkCheckpoint tt [1%Q] None 2 20
              [mkEpochStats 0 []; mkEpochStats 1 []; mkEpochStats 2 []]));
    reflexivity.
Defined.

End DriverLawsRuns.

(** ** The preparer in general *)

Section DatasetLaws.
Import Py TinyImagenet.

Lemma not_under_dir (data_path filename : string) :
  starts_with_slash filename = false ->
  filename <> DIRNAME ->
  String.prefix (DIRNAME ++ "/") filename = false ->
  under (get_dirpath data_path) (path_join data_path filename) = false.
Proof.
  intros Hs Hne Hp. unfold get_dirpath.
  destruct (path_join_relative data_path) as [sep Hsep].
  rewrite (Hsep DIRNAME eq_refl), (Hsep filename Hs).
  unfold under. apply orb_false_intro.
  - apply bool_decide_eq_false_2. intros H.
    apply append_cancel, append_cancel in H. exact (Hne H).
  - rewrite !append_assoc, !prefix_append. exact Hp.
Qed.

Lemma siblings_differ (data_path a b : string) :
  starts_with_slash a = false -> starts_with_slash b = false -> a <> b ->
  path_join data_path a <> path_join data_path b.
Proof.
  intros Ha Hb Hne H.
  destruct (path_join_relative data_path) as [sep Hsep].
  rewrite (Hsep a Ha), (Hsep b Hb) in H.
  apply append_cancel, append_cancel in H. exact (Hne H).
Qed.

Lemma under_self (dir : string) : under dir dir = true.
Proof. unfold under. rewrite bool_decide_eq_true_2 by reflexivity. reflexivity. Qed.

(** After [clean], whatever it returns, the extracted tree is not there. *)
Lemma clean_removes (data_path : string) (w : world) :
  exists_ (get_dirpath data_path) (fst (clean data_path w)) = false.
Proof.
  unfold clean, bind_io, print, exists_. cbn [files].
  destruct (bool_decide (get_dirpath data_path ∈ files w)) eqn:E; cbn [fst files emit set_files].
  - apply bool_decide_eq_false_2. rewrite elem_of_filter, under_self.
    intros [H _]. discriminate H.
  - exact E.
Qed.

Lemma try_except_finally_world {W A} (body : io W A) (catches : exn -> bool)
    (handler : io W A) (final : io W unit) (w : W) :
  exists w2, fst (try_except_finally body catches handler final w) = fst (final w2).
Proof.
  unfold try_except_finally.
  destruct (body w) as [w1 [a|e]].
  - exists w1. destruct (final w1) as [w3 [[]|e3]]; reflexivity.
  - destruct (catches e).
    + destruct (handler w1) as [w2 r2]. exists w2.
      destruct (final w2) as [w3 [[]|e3]]; reflexivity.
    + exists w1. destruct (final w1) as [w3 [[]|e3]]; reflexivity.
Qed.

Lemma build_dataset_tree_absent (data_path : string) (timeout : Z) (w : world) :
  all_hdf5_exists data_path w = false ->
  exists_ (get_dirpath data_path) (fst (build_dataset data_path timeout w)) = false.
Proof.
  intros Hall. unfold build_dataset. rewrite Hall.
  match goal with
  | |- context [try_except_finally ?b ?c ?h ?f w] =>
      destruct (try_except_finally_world b c h f w) as [w2 ->]
  end.
  apply clean_removes.
Qed.

(** X12.  A call that does not find both containers never leaves the
    extracted tree behind: whether it returns or raises, the directory
    [tiny-imagenet-200] does not exist afterwards. *)
Theorem build_dataset_cleans_up (data_path : string) (timeout : Z) (w : world) :
  all_hdf5_exists data_path w = false ->
  exists_ (get_dirpath data_path) (fst (build_dataset data_path timeout w)) = false.
Proof.
  intros Hall. unfold build_dataset. rewrite Hall.
  match goal with
  | |- context [try_except_finally ?b ?c ?h ?f w] =>
      destruct (try_except_finally_world b c h f w) as [w2 Hw]
  end.
  rewrite Hw. apply clean_removes.
Qed.

Lemma exists_add_other (p q : string) (F : gset string) :
  p <> q -> bool_decide (p ∈ {[ q ]} ∪ F) = bool_decide (p ∈ F).
Proof.
  intros Hne. apply bool_decide_ext. rewrite elem_of_union, elem_of_singleton. tauto.
Qed.

Lemma exists_add_same (p : string) (F : gset string) :
  bool_decide (p ∈ {[ p ]} ∪ F) = true.
Proof. apply bool_decide_eq_true_2. rewrite elem_of_union, elem_of_singleton. tauto. Qed.

(** X13.  When the lock can be taken and the archive is there or can be
    downloaded, a call that does not find both containers returns normally
    after these actions, in this order: take the lock, download the archive
    only if it is absent, extract it, write the training container of
    100000 records and the validation container of 10000, release the lock,
    delete the extracted tree.  Afterwards both containers and the archive
    exist and the extracted tree does not. *)
Theorem build_dataset_prepares (data_path : string) (timeout : Z) (w : world) :
  all_hdf5_exists data_path w = false ->
  (0 <=? timeout) && (timeout <? lock_busy_for w) = false ->
  exists_ (get_zipfile_path data_path) w = true \/ network_up w = true ->
  let w' := fst (build_dataset data_path timeout w) in
  snd (build_dataset data_path timeout w) = Ok tt /\
  trace w'
  = trace w
    ++ [AcquireLock (path_join data_path (DIRNAME ++ ".lock"))]
    ++ (if exists_ (get_zipfile_path data_path) w then []
        else [Download "http://cs231n.stanford.edu/tiny-imagenet-200.zip"
                       (get_zipfile_path data_path)])
    ++ [Extract (get_zipfile_path data_path) data_path;
        CreateHDF5 (path_join data_path TRAIN_FILENAME) 100000;
        CreateHDF5 (path_join data_path VAL_FILENAME) 10000;
        ReleaseLock (path_join data_path (DIRNAME ++ ".lock"));
        Rmtree (get_dirpath data_path)] /\
  all_hdf5_exists data_path w' = true /\
  exists_ (get_zipfile_path data_path) w' = true /\
  exists_ (get_dirpath data_path) w' = false.
Proof.
  intros Hall Hacq Hsrc. cbn zeta.
  assert (Hzl : get_zipfile_path data_path <> path_join data_path (DIRNAME ++ ".lock")).
  { apply siblings_differ; [reflexivity | reflexivity | discriminate]. }
  assert (Hdz : get_dirpath data_path <> get_zipfile_path data_path).
  { apply siblings_differ; [reflexivity | reflexivity | discriminate]. }
  assert (Hres : exists w', build_dataset data_path timeout w = (w', Ok tt) /\
            trace w' = trace w
              ++ [AcquireLock (path_join data_path (DIRNAME ++ ".lock"))]
              ++ (if exists_ (get_zipfile_path data_path) w then []
                  else [Download "http://cs231n.stanford.edu/tiny-imagenet-200.zip"
                                 (get_zipfile_path data_path)])
              ++ [Extract (get_zipfile_path data_path) data_path;
                  CreateHDF5 (path_join data_path TRAIN_FILENAME) 100000;
                  CreateHDF5 (path_join data_path VAL_FILENAME) 10000;
                  ReleaseLock (path_join data_path (DIRNAME ++ ".lock"));
                  Rmtree (get_dirpath data_path)] /\
            exists_ (get_zipfile_path data_path) w' = true).
  { unfold build_dataset. rewrite Hall.
    unfold try_except_finally, with_, acquire. rewrite Hacq.
    unfold bind_io at 1. unfold download, exists_.
    cbn [files emit set_files lock_busy_for network_up stdout trace].
    rewrite (exists_add_other _ _ _ Hzl).
    unfold exists_ in Hsrc.
    destruct (bool_decide (get_zipfile_path data_path ∈ files w)) eqn:Hz.
    - apply bool_decide_eq_true_1 in Hz.
      unfold print, unzip, bind_io, print, exists_, create_hdf5, create_hdf5_file, bind_io,
        clean, bind_io, print, release, exists_.
      cbn [files emit set_files lock_busy_for network_up stdout trace].
      rewrite (exists_add_other _ _ _ Hzl), (bool_decide_eq_true_2 _ Hz).
      cbn [files emit set_files lock_busy_for network_up stdout trace].
      rewrite (bool_decide_eq_true_2 (get_dirpath data_path ∈ _))
        by (rewrite !elem_of_union, !elem_of_singleton; auto).
      eexists. split; [reflexivity|].
      cbn [files emit set_files lock_busy_for network_up stdout trace].
      split; [rewrite <- !app_assoc; reflexivity|].
      apply bool_decide_eq_true_2, elem_of_filter. split.
      + apply not_under_dir; reflexivity || discriminate.
      + rewrite !elem_of_union, !elem_of_singleton; auto 6.
    - destruct Hsrc as [Hsrc | Hnet]; [discriminate|]. rewrite Hnet.
      unfold unzip, bind_io, print, exists_, create_hdf5, create_hdf5_file, bind_io,
        clean, bind_io, print, release, exists_.
      cbn [files emit set_files lock_busy_for network_up stdout trace].
      rewrite exists_add_same.
      cbn [files emit set_files lock_busy_for network_up stdout trace].
      rewrite (bool_decide_eq_true_2 (get_dirpath data_path ∈ _))
        by (rewrite !elem_of_union, !elem_of_singleton; auto).
      eexists. split; [reflexivity|].
      cbn [files emit set_files lock_busy_for network_up stdout trace].
      split; [rewrite <- !app_assoc; reflexivity|].
      apply bool_decide_eq_true_2, elem_of_filter. split.
      + apply not_under_dir; reflexivity || discriminate.
      + rewrite !elem_of_union, !elem_of_singleton; auto 6. }
  destruct Hres as (w' & Hb & Ht & Hz).
  rewrite Hb. cbn [fst snd].
  split; [reflexivity|]. split; [exact Ht|].
  split; [exact (build_dataset_ok_prepared data_path timeout w w' Hb)|].
  split; [exact Hz|].
  pose proof (build_dataset_tree_absent data_path timeout w Hall) as Hc.
  rewrite Hb in Hc. exact Hc.
Qed.

(** X14.  When the archive is absent and the download fails, the lock is
    released and the failure is not caught; the clean-up then looks for an
    extracted tree: if there is none its [FileNotFoundError] replaces the
    error of the download, and if an old one is there it is deleted and the
    error of the download propagates. *)
Theorem build_dataset_download_fails (data_path : string) (timeout : Z) (w : world) :
  all_hdf5_exists data_path w = false ->
  (0 <=? timeout) && (timeout <? lock_busy_for w) = false ->
  exists_ (get_zipfile_path data_path) w = false ->
  network_up w = false ->
  let w' := fst (build_dataset data_path timeout w) in
  snd (build_dataset data_path timeout w)
  = Raise (if exists_ (get_dirpath data_path) w then URLError
           else FileNotFoundError (get_dirpath data_path)) /\
  trace w'
  = trace w
    ++ [AcquireLock (path_join data_path (DIRNAME ++ ".lock"));
        ReleaseLock (path_join data_path (DIRNAME ++ ".lock"))]
    ++ (if exists_ (get_dirpath data_path) w then [Rmtree (get_dirpath data_path)] else []).
Proof.
  intros Hall Hacq Hz Hnet. cbn zeta.
  assert (Hzl : get_zipfile_path data_path <> path_join data_path (DIRNAME ++ ".lock")).
  { apply siblings_differ; [reflexivity | reflexivity | discriminate]. }
  assert (Hdl : get_dirpath data_path <> path_join data_path (DIRNAME ++ ".lock")).
  { apply siblings_differ; [reflexivity | reflexivity | discriminate]. }
  assert (Hres : exists w',
            build_dataset data_path timeout w
            = (w', Raise (if exists_ (get_dirpath data_path) w then URLError
                          else FileNotFoundError (get_dirpath data_path))) /\
            trace w'
            = trace w
              ++ [AcquireLock (path_join data_path (DIRNAME ++ ".lock"));
                  ReleaseLock (path_join data_path (DIRNAME ++ ".lock"))]
              ++ (if exists_ (get_dirpath data_path) w
                  then [Rmtree (get_dirpath data_path)] else [])).
  { unfold build_dataset. rewrite Hall.
    unfold try_except_finally, with_, acquire. rewrite Hacq.
    unfold bind_io at 1. unfold download, exists_ in *.
    cbn [files emit set_files lock_busy_for network_up stdout trace].
    rewrite (exists_add_other _ _ _ Hzl), Hz, Hnet.
    cbn [is_Timeout]. unfold clean, bind_io, print, release, exists_.
    cbn [files emit set_files lock_busy_for network_up stdout trace].
    rewrite (exists_add_other _ _ _ Hdl).
    destruct (bool_decide (get_dirpath data_path ∈ files w));
      (eexists; split; [reflexivity|]);
      cbn [files emit set_files lock_busy_for network_up stdout trace];
      rewrite <- ?app_assoc; reflexivity. }
  destruct Hres as (w' & -> & Ht). split; [reflexivity | exact Ht].
Qed.

End DatasetLaws.

Section DatasetLawsRuns.
Import Py TinyImagenet Samples.

Lemma build_dataset_cleans_up_witness :
  exists_ (get_dirpath "/data") (fst (build_dataset "/data" 600 locked_extracted)) = false.
Proof.
  apply (build_dataset_cleans_up "/data" 600 locked_extracted). vm_compute. reflexivity.
Defined.

Lemma build_dataset_prepares_witness :
  let w' := fst (build_dataset "/data" 600 empty_dir) in
  snd (build_dataset "/data" 600 empty_dir) = Ok tt /\
  trace w'
  = trace empty_dir
    ++ [AcquireLock (path_join "/data" (DIRNAME ++ ".lock"))]
    ++ (if exists_ (get_zipfile_path "/data") empty_dir then []
        else [Download "http://cs231n.stanford.edu/tiny-imagenet-200.zip"
                       (get_zipfile_path "/data")])
    ++ [Extract (get_zipfile_path "/data") "/data";
        CreateHDF5 (path_join "/data" TRAIN_FILENAME) 100000;
        CreateHDF5 (path_join "/data" VAL_FILENAME) 10000;
        ReleaseLock (path_join "/data" (DIRNAME ++ ".lock"));
        Rmtree (get_dirpath "/data")] /\
  all_hdf5_exists "/data" w' = true /\
  exists_ (get_zipfile_path "/data") w' = true /\
  exists_ (get_dirpath "/data") w' = false.
Proof.
  apply (build_dataset_prepares "/data" 600 empty_dir).
  - vm_compute. reflexivity.
  - reflexivity.
  - right. reflexivity.
Defined.

Lemma build_dataset_download_fails_witness :
  let w' := fst (build_dataset "/data" 600 offline) in
  snd (build_dataset "/data" 600 offline)
  = Raise (if exists_ (get_dirpath "/data") offline then URLError
           else FileNotFoundError (get_dirpath "/data")) /\
  trace w'
  = trace offline
    ++ [AcquireLock (path_join "/data" (DIRNAME ++ ".lock"));
        ReleaseLock (path_join "/data" (DIRNAME ++ ".lock"))]
    ++ (if exists_ (get_dirpath "/data") offline then [Rmtree (get_dirpath "/data")] else []).
Proof.
  apply (build_dataset_download_fails "/data" 600 offline).
  - vm_compute. reflexivity.
  - reflexivity.
  - vm_compute. reflexivity.
  - reflexivity.
Defined.

Lemma build_dataset_twice_witness :
  build_dataset "/data" 30 (fst (build_dataset "/data" 600 empty_dir))
  = (fst (build_dataset "/data" 600 empty_dir), Ok tt).
Proof.
  apply (build_dataset_twice "/data" 600 30 empty_dir).
  vm_compute. reflexivity.
Defined.

End DatasetLawsRuns.

(** ** The submission script in general *)

Section SubmissionLaws.
Import Py Save.

Lemma append_nil_r (s : string) : (s ++ "")%string = s.
Proof.
  induction s as [|c s IH]; [reflexivity|].
  change (String c (s ++ "") = String c s)%string. f_equal. exact IH.
Qed.

Lemma length_append (a b : string) :
  String.length (a ++ b) = (String.length a + String.length b)%nat.
Proof.
  induction a as [|c a IH]; [reflexivity|].
  change (S (String.length (a ++ b)) = S (String.length a + String.length b)).
  f_equal. exact IH.
Qed.

Lemma substring_prefix (a b : string) :
  String.substring 0 (String.length a) (a ++ b) = a.
Proof.
  induction a as [|c a IH].
  - destruct b; reflexivity.
  - change (String c (String.substring 0 (String.length a) (a ++ b)) = String c a).
    f_equal. exact IH.
Qed.

(** What follows the last dot: either there is no dot and it is all of the
    text read so far, or the name ends with a dot and that component. *)
Lemma last_component_from_spec (s acc : string) :
  last_component_from s acc = (acc ++ s)%string \/
  exists pre, s = (pre ++ String "." (last_component_from s acc))%string.
Proof.
  revert acc. induction s as [|c s IH]; intros acc.
  - left. cbn [last_component_from]. symmetry. apply append_nil_r.
  - cbn [last_component_from]. destruct (bool_decide_reflect (c = "."%char)) as [->|Hc].
    + right. destruct (IH EmptyString) as [H | [pre H]].
      * exists EmptyString. rewrite H. reflexivity.
      * exists (String "." pre). change (String "." s = String "." (pre ++ String "." (last_component_from s "")))%string.
        f_equal. exact H.
    + destruct (IH (acc ++ String c EmptyString)%string) as [H | [pre H]].
      * left. rewrite H. apply append_assoc.
      * right. exists (String c pre).
        change (String c s = String c (pre ++ String "." (last_component_from s (acc ++ String c ""))))%string.
        f_equal. exact H.
Qed.

(** X17.  A file name passes the filter of [get_instances] (what follows
    its last dot is [yaml]) in two cases only: it ends in [.yaml], and then
    the model name with [.yaml] appended is the file name again; or it is
    the name [yaml] itself, and then the model name is empty. *)
Theorem yaml_name_round_trip (file : string) :
  last_component file = "yaml"%string ->
  (drop_last 5 file ++ ".yaml")%string = file \/
  (file = "yaml"%string /\ drop_last 5 file = ""%string).
Proof.
  unfold last_component. intros H.
  destruct (last_component_from_spec file EmptyString) as [Hs | [pre Hs]];
    rewrite H in Hs.
  - right. change ("yaml"%string = file) in Hs. subst file. split; reflexivity.
  - left. change (String "." "yaml") with ".yaml"%string in Hs.
    assert (Hd : drop_last 5 file = pre).
    { unfold drop_last. rewrite Hs at 1 2. rewrite length_append.
      replace (String.length pre + String.length ".yaml" - 5)%nat with (String.length pre)
        by (cbn [String.length]; lia).
      apply substring_prefix. }
    rewrite Hd. symmetry. exact Hs.
Qed.

Lemma yaml_name_round_trip_witness :
  (drop_last 5 "resnet.v2.yaml" ++ ".yaml")%string = "resnet.v2.yaml"%string \/
  ("resnet.v2.yaml"%string = "yaml"%string /\ drop_last 5 "resnet.v2.yaml" = ""%string).
Proof. apply (yaml_name_round_trip "resnet.v2.yaml"). reflexivity. Defined.

(** X16.  The instances that [get_instances] yields are exactly these: the
    dataset is an entry of the experiment folder that is a directory and is
    not filtered out by [--datasets]; the model is the name, less its last
    five characters, of an entry of that directory whose last dot is
    followed by [yaml], and is not filtered out by [--models]; the path is
    the model name with [.yaml] inside that directory.  A selection that is
    absent or empty filters nothing out. *)
Theorem get_instances_exactly (fs : tree) (configs_root : string)
    (datasets models : option (list string)) (experiment : string)
    (dataset model file_path : string) :
  In (dataset, model, file_path)
     (get_instances fs configs_root datasets models experiment)
  <->
  In dataset (listdir fs (path_join configs_root experiment)) /\
  isdir fs (path_join_all configs_root [experiment; dataset]) = true /\
  skipped datasets dataset = false /\
  (exists file, In file (listdir fs (path_join_all configs_root [experiment; dataset])) /\
                last_component file = "yaml"%string /\ model = drop_last 5 file) /\
  skipped models model = false /\
  file_path = path_join_all configs_root [experiment; dataset; (model ++ ".yaml")%string].
Proof.
  unfold get_instances. rewrite in_flat_map. split.
  - intros (d & Hd & Hin). apply filter_In in Hd as [Hd Hdir].
    destruct (skipped datasets d) eqn:Hsk; [destruct Hin|].
    apply in_flat_map in Hin as (m & Hm & Hin).
    apply in_map_iff in Hm as (file & <- & Hfile).
    apply filter_In in Hfile as [Hfile Hext]. apply bool_decide_eq_true_1 in Hext.
    destruct (skipped models (drop_last 5 file)) eqn:Hskm; [destruct Hin|].
    destruct Hin as [Heq | []]. injection Heq as <- <- <-.
    repeat split; try assumption. exists file. repeat split; assumption.
  - intros (Hd & Hdir & Hsk & (file & Hfile & Hext & ->) & Hskm & ->).
    exists dataset. split; [apply filter_In; split; assumption|].
    rewrite Hsk. apply in_flat_map. exists (drop_last 5 file). split.
    + apply in_map. apply filter_In. split; [exact Hfile|].
      apply bool_decide_eq_true_2. exact Hext.
    + rewrite Hskm. left. reflexivity.
Qed.

(** X19.  For every dataset, model and version, the first two sub-commands
    are formed without error and carry the same tag, the experiment name
    [benchmark] and the three tokens separated by semicolons. *)
Theorem scheduler_and_tracking_commands (dataset model version : string) :
  format orion_template (tags dataset model version)
  = Ok ("orion hunt -n benchmark;" ++ dataset ++ ";" ++ model ++ ";" ++ version
        ++ " --config /configs/orion.core/orion_config.yaml")%string /\
  format kleio_template (tags dataset model version)
  = Ok ("kleio run --allow-host-changes --config /config/kleio.core/kleio_config.yaml"
        ++ " --tags benchmark;" ++ dataset ++ ";" ++ model ++ ";" ++ version)%string.
Proof.
  split.
  - vm_compute. reflexivity.
  - vm_compute. rewrite append_nil_r. reflexivity.
Qed.

End SubmissionLaws.
